(** * Pointnet2_PyTorch: the autograd operator wrappers of
      [utils/pointnet2_utils.py]

    The file binds externally compiled device kernels to an autograd
    framework.  The embedding follows the Python source statement by
    statement over a small object model:

    - a tensor is a strided view (storage address, offset, sizes, strides)
      of a storage block of 32-bit words kept in a heap;
    - a Python value is dynamically typed ([value]);
    - a function body is a computation in a state-and-exception monad [M];
      the state holds the heap of storages, the autograd context objects
      and the log of kernel invocations;
    - the compiled extension modules are parameters: a module maps entry
      point names to native functions over the heap, and the module-level
      name space of the file ([source_globals]) binds exactly the names the
      import statements bind. *)

From stdpp Require Import gmap strings list fin_maps.
From Stdlib Require Import ZArith.

Open Scope string_scope.
Open Scope list_scope.
Open Scope nat_scope.

(** ** Tensors and Python values *)

Inductive dtype := Float32 | Int32.

Record tensor := Tensor {
  storage : nat;          (* address of the storage block *)
  offset : nat;           (* storage offset of the first element *)
  shape : list nat;       (* size() *)
  strides : list nat;     (* stride() *)
  elem_type : dtype
}.

#[warnings="-register-all"]
Inductive value :=
| VNone
| VInt (n : Z)
| VFloat (bits : Z)
| VTensor (t : tensor)
| VTuple (vs : list value)
| VFunction (name : string).

Inductive exn :=
| AssertionError
| NameError (name : string)
| AttributeError (name : string)
| ValueError
| IndexError
| TypeError
| RuntimeError.

#[global] Instance dtype_eq_dec : EqDecision dtype.
Proof. solve_decision. Defined.

#[global] Instance tensor_eq_dec : EqDecision tensor.
Proof. solve_decision. Defined.

(** ** Heap, extension modules, state *)

Abbreviation heap := (gmap nat (list Z)).

(** A native entry point receives the Python arguments and the device
    memory; it may write to the memory and returns a value or raises. *)
Definition native : Type := list value -> heap -> heap * (exn + value).

(** A module: attribute name to entry point. *)
Definition pymodule : Type := string -> option native.

(** What a module-level name is bound to: a compiled extension module, or
    some other object (a class, a function, a pure Python module). *)
Inductive binding :=
| ExtModule (m : pymodule)
| OtherObject.

(** The global name space of a module; [None] for an unbound name. *)
Definition globals : Type := string -> option binding.

Inductive event :=
| ECall (modname entry : string) (args : list value) (h : heap)
| EPrint (v : value).

Record state := State {
  mem : heap;
  uninit : nat -> nat -> Z;  (* what a newly allocated block holds *)
  ctxs : gmap nat (gmap string value);
  trace : list event
}.

Definition M (A : Type) : Type := state -> state * (exn + A).

Definition ret {A} (a : A) : M A := fun s => (s, inr a).
Definition raise {A} (e : exn) : M A := fun s => (s, inl e).
Definition bind {A B} (m : M A) (k : A -> M B) : M B :=
  fun s => match m s with
           | (s', inr a) => k a s'
           | (s', inl e) => (s', inl e)
           end.

Notation "'let*' x ':=' m 'in' k" := (bind m (fun x => k))
  (at level 10, x pattern, m at level 100, k at level 200).

(** [assert b] *)
Definition py_assert (b : bool) : M unit :=
  if b then ret tt else raise AssertionError.

(** ** The part of torch the file uses *)

Definition numel (sh : list nat) : nat := foldr Nat.mul 1 sh.

(** The strides torch gives a newly constructed tensor: that of a dimension
    is the product of the later sizes, each taken as at least 1. *)
Definition stride_of (r : list nat) : nat :=
  foldr (fun d acc => Nat.max d 1 * acc) 1 r.

Fixpoint contiguous_strides (sh : list nat) : list nat :=
  match sh with
  | [] => []
  | _ :: r => stride_of r :: contiguous_strides r
  end.

(** [Tensor.is_contiguous]: a tensor without elements is contiguous;
    otherwise, walking the dimensions from the last one, every dimension of
    size other than 1 must have the stride a dense row-major layout gives
    it. *)
Fixpoint contig_from (dims : list (nat * nat)) (z : nat) : bool :=
  match dims with
  | [] => true
  | (sz, st) :: r =>
      if Nat.eqb sz 1 then contig_from r z
      else if Nat.eqb st z then contig_from r (z * sz) else false
  end.

Definition is_contiguous (t : tensor) : bool :=
  Nat.eqb (numel (shape t)) 0
  || contig_from (rev (zip (shape t) (strides t))) 1.

(** Storage positions of the elements of a view, in row-major order. *)
Fixpoint offsets (dims : list (nat * nat)) (base : nat) : list nat :=
  match dims with
  | [] => [base]
  | (sz, st) :: r => flat_map (fun i => offsets r (base + i * st)) (seq 0 sz)
  end.

Definition positions (t : tensor) : list nat :=
  offsets (zip (shape t) (strides t)) (offset t).

Definition block (h : heap) (a : nat) : list Z := default [] (h !! a).

Definition elements (h : heap) (t : tensor) : list Z :=
  map (fun o => default 0%Z (block h (storage t) !! o)) (positions t).

Definition write_block (blk : list Z) (os : list nat) (vs : list Z) : list Z :=
  foldl (fun b ov => <[fst ov := snd ov]> b) blk (zip os vs).

Definition store (h : heap) (t : tensor) (vs : list Z) : heap :=
  <[storage t := write_block (block h (storage t)) (positions t) vs]> h.

(** [t.size()] *)
Definition size (t : tensor) : list nat := shape t.

(** [t.size(i)] for a literal, non-negative [i]. *)
Definition size_at (t : tensor) (i : nat) : M nat :=
  match shape t !! i with
  | Some n => ret n
  | None => raise IndexError
  end.

(** Tuple unpacking of a size. *)
Definition unpack2 (l : list nat) : M (nat * nat) :=
  match l with
  | [a; b] => ret (a, b)
  | _ => raise ValueError
  end.

Definition unpack3 (l : list nat) : M (nat * nat * nat) :=
  match l with
  | [a; b; c] => ret (a, b, c)
  | _ => raise ValueError
  end.

Definition unpack4 (l : list nat) : M (nat * nat * nat * nat) :=
  match l with
  | [a; b; c; d] => ret (a, b, c, d)
  | _ => raise ValueError
  end.

(** [torch.cuda.FloatTensor(d0, d1, ...)] and [torch.cuda.IntTensor(...)]:
    a dense tensor over a new storage block whose words are whatever the
    device memory held.  The device is taken to serve every request of
    non-negative sizes: a request it cannot serve (a size outside the range
    of a machine integer, more memory than there is) is outside the model,
    and the statements about sizes given by the caller bound them. *)
Definition cuda_tensor (dt : dtype) (dims : list Z) : M tensor :=
  fun s =>
    if forallb (fun d => (0 <=? d)%Z) dims then
      let sh := map Z.to_nat dims in
      let a := fresh (dom (mem s)) in
      let t := Tensor a 0 sh (contiguous_strides sh) dt in
      (State (<[a := map (uninit s a) (seq 0 (numel sh))]> (mem s))
             (uninit s) (ctxs s) (trace s), inr t)
    else (s, inl RuntimeError).

(** [t.zero_()]: in place, returns [t]. *)
Definition zero_ (t : tensor) : M tensor :=
  fun s =>
    (State (store (mem s) t (replicate (numel (shape t)) 0%Z))
           (uninit s) (ctxs s) (trace s), inr t).

(** [Variable(t)] and [v.data] share the tensor. *)
Definition autograd_Variable (t : tensor) : tensor := t.
Definition data (t : tensor) : tensor := t.

(** [t.contiguous()]: [t] itself when it is contiguous, a dense copy
    otherwise. *)
Definition contiguous (t : tensor) : M tensor :=
  if is_contiguous t then ret t
  else fun s =>
    let a := fresh (dom (mem s)) in
    let c := Tensor a 0 (shape t) (contiguous_strides (shape t)) (elem_type t) in
    (State (<[a := elements (mem s) t]> (mem s)) (uninit s) (ctxs s) (trace s),
     inr c).

Definition swap {A} (i j : nat) (l : list A) : option (list A) :=
  match l !! i, l !! j with
  | Some x, Some y => Some (<[j := x]> (<[i := y]> l))
  | _, _ => None
  end.

(** [t.transpose(i, j)]: a view. *)
Definition transpose (i j : nat) (t : tensor) : M tensor :=
  match swap i j (shape t), swap i j (strides t) with
  | Some sh, Some st => ret (Tensor (storage t) (offset t) sh st (elem_type t))
  | _, _ => raise IndexError
  end.

(** [t.unsqueeze(-1)]: a view with a trailing dimension of size 1. *)
Definition unsqueeze_last (t : tensor) : tensor :=
  Tensor (storage t) (offset t) (shape t ++ [1]) (strides t ++ [1]) (elem_type t).

(** Broadcasting of a view to the sizes [l] (both given from the last
    dimension on): a dimension that is missing or of size 1 is repeated
    with stride 0. *)
Fixpoint expand_rev (l : list nat) (r : list (nat * nat)) : option (list (nat * nat)) :=
  match l, r with
  | [], [] => Some []
  | [], _ :: _ => None
  | n :: l', [] => cons (n, 0) <$> expand_rev l' []
  | n :: l', (sz, st) :: r' =>
      if Nat.eqb sz n then cons (n, st) <$> expand_rev l' r'
      else if Nat.eqb sz 1 then cons (n, 0) <$> expand_rev l' r'
      else None
  end.

Definition new_block (content : list Z) (sh : list nat) (dt : dtype) : M tensor :=
  fun s =>
    let a := fresh (dom (mem s)) in
    (State (<[a := content]> (mem s)) (uninit s) (ctxs s) (trace s),
     inr (Tensor a 0 sh (contiguous_strides sh) dt)).

Fixpoint chunks {A} (n k : nat) (l : list A) : list (list A) :=
  match k with
  | 0 => []
  | S k' => take n l :: chunks n k' (drop n l)
  end.

Section Operators.

(** Single-precision arithmetic on the 32-bit words of a storage. *)
Variable fsub : Z -> Z -> Z.
Variable fsqrt : Z -> Z.

(** The module-level name space. *)
Variable G : globals.

(** [a -= b], in place with broadcasting of [b]. *)
Definition isub (a b : tensor) : M unit :=
  match expand_rev (rev (shape a)) (rev (zip (shape b) (strides b))) with
  | Some dims =>
      fun s =>
        let rhs := map (fun o => default 0%Z (block (mem s) (storage b) !! o))
                       (offsets (rev dims) (offset b)) in
        let lhs := elements (mem s) a in
        (State (store (mem s) a (zip_with fsub lhs rhs))
               (uninit s) (ctxs s) (trace s), inr tt)
  | None => raise RuntimeError
  end.

(** [torch.cat([a, b], dim=1)] for operands of one element type, which is
    how the file uses it (coordinates and features are both floating
    point): the words are copied into a new dense tensor.  For operands of
    different element types torch converts to the wider type; that
    conversion is outside the model. *)
Definition cat_dim1 (a b : tensor) : M tensor :=
  match shape a, shape b with
  | n :: ca :: ra, n' :: cb :: rb =>
      if decide (n = n' /\ ra = rb) then
        fun s =>
          let ea := chunks (ca * numel ra) n (elements (mem s) a) in
          let eb := chunks (cb * numel ra) n (elements (mem s) b) in
          new_block (concat (zip_with app ea eb)) (n :: (ca + cb) :: ra)
                    (elem_type a) s
      else raise RuntimeError
  | _, _ => raise IndexError
  end.

(** [torch.sqrt(t)] *)
Definition torch_sqrt (t : tensor) : M tensor :=
  fun s => new_block (map fsqrt (elements (mem s) t)) (shape t) (elem_type t) s.

(** [print(v)] *)
Definition print (v : value) : M unit :=
  fun s => (State (mem s) (uninit s) (ctxs s) (trace s ++ [EPrint v]), inr tt).

(** *** Autograd context objects *)

Definition ctx_attrs (s : state) (c : nat) : gmap string value :=
  default ∅ (ctxs s !! c).

(** [ctx.a = v] *)
Definition setattr (c : nat) (a : string) (v : value) : M unit :=
  fun s =>
    (State (mem s) (uninit s) (<[c := <[a := v]> (ctx_attrs s c)]> (ctxs s))
           (trace s), inr tt).

(** [ctx.a] *)
Definition getattr (c : nat) (a : string) : M value :=
  fun s =>
    match ctx_attrs s c !! a with
    | Some v => (s, inr v)
    | None => (s, inl (AttributeError a))
    end.

Definition new_ctx : M nat :=
  fun s =>
    let c := fresh (dom (ctxs s)) in
    (State (mem s) (uninit s) (<[c := ∅]> (ctxs s)) (trace s), inr c).

(** [F.apply(args)]: the forward pass runs on a context object of its own. *)
Definition apply {A} (forward : nat -> M A) : M A :=
  let* c := new_ctx in forward c.

(** *** Dynamic typing *)

(** Iteration over a value, as tuple unpacking does it. *)
Definition iter_value (v : value) : M (list value) :=
  match v with
  | VTuple vs => ret vs
  | VTensor t =>
      match shape t, strides t with
      | d :: sh, st :: sts =>
          ret (map (fun i => VTensor (Tensor (storage t) (offset t + i * st)
                                             sh sts (elem_type t)))
                   (seq 0 d))
      | _, _ => raise TypeError
      end
  | _ => raise TypeError
  end.

(** [x, = v] *)
Definition unpack_1 (v : value) : M value :=
  let* l := iter_value v in
  match l with
  | [x] => ret x
  | _ => raise ValueError
  end.

(** [x, y = v] *)
Definition unpack_2 (v : value) : M (value * value) :=
  let* l := iter_value v in
  match l with
  | [x; y] => ret (x, y)
  | _ => raise ValueError
  end.

(** [x, y, z = v] *)
Definition unpack_3 (v : value) : M (value * value * value) :=
  let* l := iter_value v in
  match l with
  | [x; y; z] => ret (x, y, z)
  | _ => raise ValueError
  end.

(** Use of [v] as the receiver of the tensor method [meth]. *)
Definition as_tensor (meth : string) (v : value) : M tensor :=
  match v with
  | VTensor t => ret t
  | _ => raise (AttributeError meth)
  end.

(** Use of [v] as a tensor operand. *)
Definition as_operand (v : value) : M tensor :=
  match v with
  | VTensor t => ret t
  | _ => raise TypeError
  end.

(** Use of [v] as a dimension of a tensor constructor. *)
Definition as_dim (v : value) : M Z :=
  match v with
  | VInt n => ret n
  | _ => raise TypeError
  end.

(** *** Calls into the compiled extension modules

    [modname.entry(args)]: the module name is looked up first, then the
    attribute, then the call is made and logged with the memory it saw. *)
Definition call_ext (modname entry : string) (args : list value) : M value :=
  match G modname with
  | None => raise (NameError modname)
  | Some OtherObject => raise (AttributeError entry)
  | Some (ExtModule md) =>
      match md entry with
      | None => raise (AttributeError entry)
      | Some f =>
          fun s =>
            let '(h', r) := f args (mem s) in
            (State h' (uninit s) (ctxs s)
                   (trace s ++ [ECall modname entry args (mem s)]), r)
      end
  end.

Definition int (n : nat) : value := VInt (Z.of_nat n).

(** ** class FurthestPointSampling *)

Definition FurthestPointSampling_forward (ctx : nat) (xyz : tensor) (npoint : Z)
  : M value :=
  let* B := size_at xyz 0 in
  let* output := cuda_tensor Int32 [Z.of_nat B; npoint] in
  let* r := call_ext "pointnet" "furthest_point_sampling"
                     [VInt npoint; VTensor xyz; VTensor output] in
  let* output := unpack_1 r in
  ret output.

Definition FurthestPointSampling_backward (xyz : nat) (a : value) : M value :=
  ret (VTuple [VNone; VNone]).

Definition furthest_point_sample (xyz : tensor) (npoint : Z) : M value :=
  apply (fun ctx => FurthestPointSampling_forward ctx xyz npoint).

(** ** class GatherPoints *)

Definition GatherPoints_forward (ctx : nat) (points idx : tensor) : M value :=
  let* (B, C, N) := unpack3 (size points) in
  let* k := size_at idx 1 in
  let* output := cuda_tensor Float32 [Z.of_nat B; Z.of_nat C; Z.of_nat k] in
  let* r := call_ext "pointnet" "gather_points"
                     [VTensor points; VTensor idx; VTensor output] in
  let* output := unpack_1 r in
  let* _ := setattr ctx "for_backwards" (VTuple [VTensor idx; int C; int N]) in
  ret output.

Definition GatherPoints_backward (ctx : nat) (grad_out : tensor) : M value :=
  let* fb := getattr ctx "for_backwards" in
  let* (idx, C, N) := unpack_3 fb in
  let* idx_t := as_tensor "size" idx in
  let* (B, npoint) := unpack2 (size idx_t) in
  let* C' := as_dim C in
  let* N' := as_dim N in
  let* grad_points := cuda_tensor Float32 [Z.of_nat B; C'; N'] in
  let* r := call_ext "pointnet" "gather_points_grad"
                     [VTensor grad_out; idx; VTensor grad_points] in
  let* grad_points := unpack_1 r in
  let* _ := print grad_points in
  ret (VTuple [grad_points; VNone]).

Definition gather_points (points idx : tensor) : M value :=
  apply (fun ctx => GatherPoints_forward ctx points idx).

(** ** class ThreeNN *)

Definition ThreeNN_forward (ctx : nat) (unknown known : tensor) : M value :=
  let* _ := py_assert (is_contiguous unknown) in
  let* _ := py_assert (is_contiguous known) in
  let* (B, N, _) := unpack3 (size unknown) in
  let* m := size_at known 1 in
  let* dist2 := cuda_tensor Float32 [Z.of_nat B; Z.of_nat N; 3%Z] in
  let* idx := cuda_tensor Int32 [Z.of_nat B; Z.of_nat N; 3%Z] in
  let* _ := call_ext "pointnet2" "three_nn_wrapper"
                     [int B; int N; int m; VTensor unknown; VTensor known;
                      VTensor dist2; VTensor idx] in
  let* dist := torch_sqrt dist2 in
  ret (VTuple [VTensor dist; VTensor idx]).

Definition ThreeNN_backward (ctx : nat) (a b : value) : M value :=
  ret (VTuple [VNone; VNone]).

Definition three_nn (unknown known : tensor) : M value :=
  apply (fun ctx => ThreeNN_forward ctx unknown known).

(** ** class ThreeInterpolate *)

Definition ThreeInterpolate_forward (ctx : nat) (points idx weight : tensor)
  : M value :=
  let* _ := py_assert (is_contiguous points) in
  let* _ := py_assert (is_contiguous idx) in
  let* _ := py_assert (is_contiguous weight) in
  let* (B, c, m) := unpack3 (size points) in
  let* n := size_at idx 1 in
  let* _ := setattr ctx "three_interpolate_for_backward"
                    (VTuple [VTensor idx; VTensor weight; int m]) in
  let* output := cuda_tensor Float32 [Z.of_nat B; Z.of_nat c; Z.of_nat n] in
  let* _ := call_ext "pointnet2" "three_interpolate_wrapper"
                     [int B; int c; int m; int n; VTensor points; VTensor idx;
                      VTensor weight; VTensor output] in
  ret (VTensor output).

Definition ThreeInterpolate_backward (ctx : nat) (grad_out : tensor) : M value :=
  let* fb := getattr ctx "three_interpolate_for_backward" in
  let* (idx, weight, m) := unpack_3 fb in
  let* (B, c, n) := unpack3 (size grad_out) in
  let* m' := as_dim m in
  let* buf := cuda_tensor Float32 [Z.of_nat B; Z.of_nat c; m'] in
  let* zeroed := zero_ buf in
  let grad_points := autograd_Variable zeroed in
  let* grad_out_data := contiguous (data grad_out) in
  let* _ := call_ext "pointnet2" "three_interpolate_grad_wrapper"
                     [int B; int c; int n; m; VTensor grad_out_data; idx; weight;
                      VTensor (data grad_points)] in
  ret (VTuple [VTensor grad_points; VNone; VNone]).

Definition three_interpolate (points idx weight : tensor) : M value :=
  apply (fun ctx => ThreeInterpolate_forward ctx points idx weight).

(** ** class GroupPoints

    [idx] is dynamically typed here: [QueryAndGroup] hands over whatever the
    ball query kernel returned. *)

Definition GroupPoints_forward (ctx : nat) (points : tensor) (idx : value)
  : M value :=
  let* _ := py_assert (is_contiguous points) in
  let* idx_t := as_tensor "is_contiguous" idx in
  let* _ := py_assert (is_contiguous idx_t) in
  let* (B, npoints, nsample) := unpack3 (size idx_t) in
  let* (_, C, N) := unpack3 (size points) in
  let* output := cuda_tensor Float32 [Z.of_nat B; Z.of_nat C; Z.of_nat npoints;
                                      Z.of_nat nsample] in
  let* _ := call_ext "pointnet2" "group_points_wrapper"
                     [int B; int C; int N; int npoints; int nsample;
                      VTensor points; idx; VTensor output] in
  let* _ := setattr ctx "for_backwards" (VTuple [idx; int N]) in
  ret (VTensor output).

Definition GroupPoints_backward (ctx : nat) (grad_out : tensor) : M value :=
  let* fb := getattr ctx "for_backwards" in
  let* (idx, N) := unpack_2 fb in
  let* (B, C, npoint, nsample) := unpack4 (size grad_out) in
  let* N' := as_dim N in
  let* buf := cuda_tensor Float32 [Z.of_nat B; Z.of_nat C; N'] in
  let* zeroed := zero_ buf in
  let grad_points := autograd_Variable zeroed in
  let* grad_out_data := contiguous (data grad_out) in
  let* _ := call_ext "pointnet2" "group_points_grad_wrapper"
                     [int B; int C; N; int npoint; int nsample;
                      VTensor grad_out_data; idx; VTensor (data grad_points)] in
  ret (VTuple [VTensor grad_points; VNone]).

Definition group_points (points : tensor) (idx : value) : M value :=
  apply (fun ctx => GroupPoints_forward ctx points idx).

(** ** class BallQuery *)

Definition BallQuery_forward (ctx : nat) (radius nsample : Z)
  (xyz new_xyz : tensor) : M value :=
  let* B := size_at xyz 0 in
  let* npoint := size_at new_xyz 1 in
  let* idx := cuda_tensor Int32 [Z.of_nat B; Z.of_nat npoint; 3%Z] in
  let* r := call_ext "pointnet" "ball_query"
                     [VFloat radius; VInt nsample; VTensor xyz; VTensor new_xyz;
                      VTensor idx] in
  let* idx := unpack_1 r in
  ret idx.

Definition BallQuery_backward (ctx : nat) (a : value) : M value :=
  ret (VTuple [VNone; VNone; VNone; VNone]).

Definition ball_query (radius nsample : Z) (xyz new_xyz : tensor) : M value :=
  apply (fun ctx => BallQuery_forward ctx radius nsample xyz new_xyz).

(** ** class QueryAndGroup *)

Record QueryAndGroup := {
  radius : Z;
  nsample : Z;
  use_xyz : bool
}.

Definition QueryAndGroup_forward (self : QueryAndGroup) (xyz new_xyz : tensor)
  (points : option tensor) : M value :=
  let* idx := ball_query (radius self) (nsample self) xyz new_xyz in
  let* xyz_t := transpose 1 2 xyz in
  let* xyz_trans := contiguous xyz_t in
  let* grouped_xyz := group_points xyz_trans idx in
  let* new_xyz_t := transpose 1 2 new_xyz in
  let* lhs := as_operand grouped_xyz in
  let* _ := isub lhs (unsqueeze_last new_xyz_t) in
  match points with
  | Some pts =>
      let* grouped_points := group_points pts idx in
      if use_xyz self then
        let* a := as_operand grouped_xyz in
        let* b := as_operand grouped_points in
        let* new_points := cat_dim1 a b in
        ret (VTensor new_points)
      else
        ret (VFunction "group_points")
  | None => ret grouped_xyz
  end.

End Operators.

(** ** The name space of [pointnet2_utils.py]

    Lines 1 to 11 import [torch], [Variable], [Function], [F], [nn],
    [pdist2], [PDist2Order], [namedtuple], [pt_utils], [List], [Tuple] and
    the compiled extension [pointnet]; the rest of the file binds the
    classes and their [apply] aliases.  No statement binds [pointnet2]. *)

Definition imported_names : list string :=
  ["torch"; "Variable"; "Function"; "F"; "nn"; "pdist2"; "PDist2Order";
   "namedtuple"; "pt_utils"; "List"; "Tuple"; "pointnet"].

Definition defined_names : list string :=
  ["RandomDropout"; "FurthestPointSampling"; "furthest_point_sample";
   "GatherPoints"; "gather_points"; "ThreeNN"; "three_nn";
   "ThreeInterpolate"; "three_interpolate"; "GroupPoints"; "group_points";
   "BallQuery"; "ball_query"; "QueryAndGroup"; "GroupAll"].

Definition source_globals (pointnet : pymodule) : globals :=
  fun name =>
    if decide (name = "pointnet") then Some (ExtModule pointnet)
    else if decide (name ∈ imported_names ++ defined_names) then Some OtherObject
    else None.

(** Modelled from the spec: the kernel entry points of the compiled
    extension, which are not among the sources.  The spec says of this
    layer that it "allocates output buffers, forwards arguments to external
    kernel entry points"; the entry points of [pointnet] are called as
    [output, = pointnet.f(..., output)], so a kernel that honours the call
    hands back, as a one-element tuple, a tensor of the sizes of the buffer
    it received as its last argument. *)
Definition fills_output (k : native) : Prop :=
  forall args out h, exists h' t,
    k (args ++ [VTensor out]) h = (h', inr (VTuple [VTensor t]))
    /\ shape t = shape out.

(** A kernel that returns the buffer untouched, for experiments. *)
Definition echo_kernel : native :=
  fun args h =>
    match last args with
    | Some out => (h, inr (VTuple [out]))
    | None => (h, inl TypeError)
    end.

Definition demo_pointnet : pymodule :=
  fun entry =>
    if decide (entry ∈ ["furthest_point_sampling"; "gather_points";
                        "gather_points_grad"; "ball_query"])
    then Some echo_kernel else None.

Definition dense (a : nat) (sh : list nat) (dt : dtype) : tensor :=
  Tensor a 0 sh (contiguous_strides sh) dt.

(** An initial state with two storage blocks of 24 words at addresses 0 and
    1, and device memory that holds 7 everywhere else. *)
Definition demo_state : state :=
  State (<[1 := replicate 24 2%Z]> (<[0 := replicate 24 1%Z]> ∅))
        (fun _ _ => 7%Z) ∅ [].

(** ** Auxiliary notions used in the statements *)

Definition allocated (s : state) (content : list Z) : state :=
  State (<[fresh (dom (mem s)) := content]> (mem s)) (uninit s) (ctxs s) (trace s).

Definition garbage (s : state) (n : nat) : list Z :=
  map (uninit s (fresh (dom (mem s)))) (seq 0 n).

Definition called (s : state) (modname entry : string) (args : list value)
  (h' : heap) : state :=
  State h' (uninit s) (ctxs s) (trace s ++ [ECall modname entry args (mem s)]).

(** A view of block 0 that is not contiguous: sizes (2, 4, 3) over the
    memory of a dense (2, 3, 4) tensor. *)
Definition strided_view : tensor := Tensor 0 0 [2; 4; 3] [12; 1; 4] Float32.

(** The tensors held by a value. *)
Fixpoint tensors_of (v : value) : list tensor :=
  match v with
  | VTensor t => [t]
  | VTuple vs => flat_map tensors_of vs
  | _ => []
  end.

(** Context object [c] holds tensor [t] in one of its attributes. *)
Definition retains (s : state) (c : nat) (t : tensor) : Prop :=
  exists a v, ctx_attrs s c !! a = Some v /\ t ∈ tensors_of v.

(** A computation that leaves every context object as it is. *)
Definition keeps_ctxs {A} (m : M A) : Prop :=
  forall s, ctxs (m s).1 = ctxs s.

(** A computation that at most sets attribute [a] of context [c] to [v]. *)
Definition saves {A} (c : nat) (a : string) (v : value) (m : M A) : Prop :=
  forall s, ctxs (m s).1 = ctxs s
            \/ ctxs (m s).1 = <[c := <[a := v]> (ctx_attrs s c)]> (ctxs s).

Definition keeps_trace {A} (m : M A) : Prop :=
  forall s, trace (m s).1 = trace s.

(** The storage block of the view exists, and every element of the view
    lies in it and is the word 0. *)
Definition zeroed (h : heap) (t : tensor) : Prop :=
  exists blk, h !! storage t = Some blk
              /\ Forall (fun o => blk !! o = Some 0%Z) (positions t).

(** A name space in which [pointnet2] is bound as well, for experiments. *)
Definition linked_globals (pointnet pointnet2 : pymodule) : globals :=
  fun name =>
    if decide (name = "pointnet2") then Some (ExtModule pointnet2)
    else source_globals pointnet name.

(** A kernel that writes nothing and returns None. *)
Definition idle_kernel : native := fun _ h => (h, inr VNone).

Definition demo_pointnet2 : pymodule :=
  fun entry =>
    if decide (entry ∈ ["three_nn_wrapper"; "three_interpolate_wrapper";
                        "three_interpolate_grad_wrapper";
                        "group_points_wrapper"; "group_points_grad_wrapper"])
    then Some idle_kernel else None.

(** [demo_state] with context object 0 holding [v] in attribute [a]. *)
Definition demo_state_with (a : string) (v : value) : state :=
  State (mem demo_state) (uninit demo_state) {[0 := {[a := v]}]} [].

(** ** class GroupAll *)

(** [t.unsqueeze(d)] for a literal, non-negative [d]: a view with a
    dimension of size 1 inserted at position [d], with the stride torch
    gives it (size times stride of the dimension it is put in front of,
    1 at the end). *)
Definition unsqueeze (d : nat) (t : tensor) : M tensor :=
  if decide (d <= length (shape t)) then
    let st := match shape t !! d, strides t !! d with
              | Some n, Some k => n * k
              | _, _ => 1
              end in
    ret (Tensor (storage t) (offset t)
                (take d (shape t) ++ 1 :: drop d (shape t))
                (take d (strides t) ++ st :: drop d (strides t))
                (elem_type t))
  else raise IndexError.

Record GroupAll := {
  GroupAll_use_xyz : bool
}.

Definition GroupAll_forward (self : GroupAll) (xyz new_xyz : tensor)
  (points : option tensor) : M value :=
  let* xyz_t := transpose 1 2 xyz in
  let* grouped_xyz := unsqueeze 2 xyz_t in
  match points with
  | Some pts =>
      let* grouped_points := unsqueeze 2 pts in
      if GroupAll_use_xyz self then
        let* new_points := cat_dim1 grouped_xyz grouped_points in
        ret (VTensor new_points)
      else
        ret (VFunction "group_points")
  | None => ret (VTensor grouped_xyz)
  end.

(** ** Reading single elements *)

(** Storage offset, relative to the first element, of the element at a
    multi-index; [None] when the index has the wrong length or is out of
    range. *)
Fixpoint index_offset (dims : list (nat * nat)) (idx : list nat) : option nat :=
  match dims, idx with
  | [], [] => Some 0
  | (sz, st) :: r, i :: idx' =>
      if decide (i < sz) then (fun o => i * st + o) <$> index_offset r idx'
      else None
  | _, _ => None
  end.

(** [t[i0, i1, ...]], read the way [elements] reads. *)
Definition item (h : heap) (t : tensor) (idx : list nat) : option Z :=
  (fun o => default 0%Z (block h (storage t) !! (offset t + o)))
    <$> index_offset (zip (shape t) (strides t)) idx.

(** Position of a multi-index in the row-major enumeration of a tensor of
    the given sizes. *)
Fixpoint flat_index (sizes idx : list nat) : nat :=
  match sizes, idx with
  | _ :: r, i :: idx' => i * numel r + flat_index r idx'
  | _, _ => 0
  end.

(** A kernel that hands back the very buffer it received as its last
    argument, as the calls [output, = pointnet.f(..., output)] expect. *)
Definition returns_buffer (k : native) : Prop :=
  forall args out h, exists h',
    k (args ++ [VTensor out]) h = (h', inr (VTuple [VTensor out])).

(** ** Basic facts about the monad and the allocator *)

Lemma bind_ok {A B} (m : M A) (k : A -> M B) s s' a :
  m s = (s', inr a) -> bind m k s = k a s'.
Proof. intros H. unfold bind. now rewrite H. Qed.

Lemma bind_err {A B} (m : M A) (k : A -> M B) s s' e :
  m s = (s', inl e) -> bind m k s = (s', inl e).
Proof. intros H. unfold bind. now rewrite H. Qed.

(** A computation that fails makes every continuation fail. *)
Lemma bind_fails {A B} (m : M A) (k : A -> M B) s :
  (exists e, (m s).2 = inl e) -> exists e, (bind m k s).2 = inl e.
Proof.
  intros [e He]. unfold bind. destruct (m s) as [s' [e'|a]]; simpl in *.
  - eauto.
  - discriminate.
Qed.

(** So does a continuation that always fails. *)
Lemma bind_fails_later {A B} (m : M A) (k : A -> M B) s :
  (forall a s', exists e, (k a s').2 = inl e) -> exists e, (bind m k s).2 = inl e.
Proof.
  intros Hk. unfold bind. destruct (m s) as [s' [e'|a]]; simpl; eauto.
Qed.

Lemma cuda_tensor_ok dt dims s :
  Forall (fun d => (0 <= d)%Z) dims ->
  cuda_tensor dt dims s =
    (allocated s (garbage s (numel (map Z.to_nat dims))),
     inr (dense (fresh (dom (mem s))) (map Z.to_nat dims) dt)).
Proof.
  intros H. unfold cuda_tensor.
  assert (forallb (fun d => (0 <=? d)%Z) dims = true) as ->; [|reflexivity].
  induction H as [|d l Hd _ IH]; simpl; [reflexivity|].
  rewrite IH, andb_true_r. now apply Z.leb_le.
Qed.

Lemma cuda_tensor_nat dt (sh : list nat) s :
  cuda_tensor dt (map Z.of_nat sh) s =
    (allocated s (garbage s (numel sh)), inr (dense (fresh (dom (mem s))) sh dt)).
Proof.
  rewrite cuda_tensor_ok.
  - rewrite map_map. rewrite (map_ext _ id), map_id; [reflexivity|].
    intros n. apply Nat2Z.id.
  - induction sh; constructor; [lia|assumption].
Qed.

Lemma fresh_block_new (h : heap) : fresh (dom h) ∉ dom h.
Proof. apply is_fresh. Qed.

Lemma fresh_block_lookup (h : heap) : h !! fresh (dom h) = None.
Proof. apply not_elem_of_dom, is_fresh. Qed.

Lemma source_globals_pointnet P : source_globals P "pointnet" = Some (ExtModule P).
Proof. reflexivity. Qed.

Lemma source_globals_pointnet2 P : source_globals P "pointnet2" = None.
Proof. reflexivity. Qed.

Lemma call_ext_bound G modname entry md f args s :
  G modname = Some (ExtModule md) -> md entry = Some f ->
  call_ext G modname entry args s =
    (called s modname entry args (f args (mem s)).1, (f args (mem s)).2).
Proof.
  intros HG Hmd. unfold call_ext. rewrite HG, Hmd.
  now destruct (f args (mem s)).
Qed.

Lemma call_ext_unbound G modname entry args s :
  G modname = None ->
  call_ext G modname entry args s = (s, inl (NameError modname)).
Proof. intros HG. unfold call_ext. now rewrite HG. Qed.

(** A [pointnet] entry point that fills its output buffer, called from the
    file's name space, returns and logs the call. *)
Lemma call_pointnet_fills P entry k args out s :
  P entry = Some k -> fills_output k ->
  exists h' t,
    call_ext (source_globals P) "pointnet" entry (args ++ [VTensor out]) s =
      (called s "pointnet" entry (args ++ [VTensor out]) h',
       inr (VTuple [VTensor t]))
    /\ shape t = shape out.
Proof.
  intros HP Hk. destruct (Hk args out (mem s)) as (h' & t & Hr & Hsh).
  exists h', t. split; [|exact Hsh].
  rewrite (call_ext_bound _ _ _ P k); [|reflexivity|exact HP].
  now rewrite Hr.
Qed.


Lemma echo_kernel_fills : fills_output echo_kernel.
Proof.
  intros args out h. exists h, out. unfold echo_kernel.
  now rewrite last_snoc.
Qed.


Lemma setattr_run c a v s :
  setattr c a v s =
    (State (mem s) (uninit s) (<[c := <[a := v]> (ctx_attrs s c)]> (ctxs s))
           (trace s), inr tt).
Proof. reflexivity. Qed.

(** C7: with features of shape (B, C, N) and indices of shape (B, k), gather
    points returns a tensor of shape (B, C, k), k being the second dimension
    of the index tensor. *)
Theorem GatherPoints_forward_shape
  (P : pymodule) (k : native) (ctx : nat) (points idx : tensor)
  (B C N npoint : nat) (s : state) :
  P "gather_points" = Some k ->
  fills_output k ->
  shape points = [B; C; N] ->
  shape idx = [B; npoint] ->
  exists s' t,
    GatherPoints_forward (source_globals P) ctx points idx s
      = (s', inr (VTensor t))
    /\ shape t = [B; C; npoint].
Proof.
  intros HP Hk Hpts Hidx. unfold GatherPoints_forward, size.
  rewrite Hpts. simpl unpack3.
  erewrite bind_ok; [|reflexivity]. cbv beta iota.
  erewrite bind_ok; [|unfold size_at; rewrite Hidx; reflexivity].
  erewrite bind_ok; [|apply (cuda_tensor_nat _ [B; C; npoint])].
  set (out := dense _ _ _).
  destruct (call_pointnet_fills P _ k [VTensor points; VTensor idx] out
              (allocated s (garbage s (numel [B; C; npoint]))) HP Hk)
    as (h' & t & Hcall & Hsh).
  erewrite bind_ok; [|exact Hcall].
  erewrite bind_ok; [|reflexivity].
  erewrite bind_ok; [|apply setattr_run].
  eexists _, t. split; [reflexivity|].
  rewrite Hsh. reflexivity.
Qed.

Lemma GatherPoints_forward_shape_witness :
  exists s' t,
    GatherPoints_forward (source_globals demo_pointnet) 0
      (dense 0 [2; 3; 4] Float32) (dense 1 [2; 5] Int32) demo_state
      = (s', inr (VTensor t))
    /\ shape t = [2; 3; 5].
Proof.
  apply (GatherPoints_forward_shape demo_pointnet echo_kernel 0
           (dense 0 [2; 3; 4] Float32) (dense 1 [2; 5] Int32) 2 3 4 5 demo_state).
  - reflexivity.
  - exact echo_kernel_fills.
  - reflexivity.
  - reflexivity.
Defined.

(** C1: the ball query wrapper allocates its index buffer with a last
    dimension of 3, whatever the sample cap: with points of shape (B, N, 3)
    and centers of shape (B, npoint, 3) the returned tensor has shape
    (B, npoint, 3), which is not (B, npoint, nsample) unless nsample is 3. *)
Theorem BallQuery_forward_shape_ignores_nsample
  (P : pymodule) (k : native) (ctx : nat) (radius nsample : Z)
  (xyz new_xyz : tensor) (B N npoint : nat) (s : state) :
  P "ball_query" = Some k ->
  fills_output k ->
  shape xyz = [B; N; 3] ->
  shape new_xyz = [B; npoint; 3] ->
  exists s' t,
    BallQuery_forward (source_globals P) ctx radius nsample xyz new_xyz s
      = (s', inr (VTensor t))
    /\ shape t = [B; npoint; 3]
    /\ (nsample <> 3%Z -> shape t <> [B; npoint; Z.to_nat nsample]).
Proof.
  intros HP Hk Hxyz Hnew. unfold BallQuery_forward.
  erewrite bind_ok; [|unfold size_at; rewrite Hxyz; reflexivity].
  erewrite bind_ok; [|unfold size_at; rewrite Hnew; reflexivity].
  erewrite bind_ok; [|apply (cuda_tensor_nat _ [B; npoint; 3])].
  set (out := dense _ _ _).
  destruct (call_pointnet_fills P _ k
              [VFloat radius; VInt nsample; VTensor xyz; VTensor new_xyz] out
              (allocated s (garbage s (numel [B; npoint; 3]))) HP Hk)
    as (h' & t & Hcall & Hsh).
  erewrite bind_ok; [|exact Hcall].
  eexists _, t. split; [reflexivity|].
  rewrite Hsh. split; [reflexivity|].
  intros Hne Heq. subst out. simpl in Heq.
  injection Heq as Heq. apply Hne.
  destruct (Z.le_gt_cases 0 nsample) as [Hpos|Hneg].
  - rewrite <- (Z2Nat.id nsample Hpos), <- Heq. reflexivity.
  - rewrite Z2Nat.nonpos in Heq by lia. discriminate.
Qed.

Lemma BallQuery_forward_shape_ignores_nsample_witness :
  exists s' t,
    BallQuery_forward (source_globals demo_pointnet) 0 1%Z 32%Z
      (dense 0 [2; 4; 3] Float32) (dense 1 [2; 5; 3] Float32) demo_state
      = (s', inr (VTensor t))
    /\ shape t = [2; 5; 3]
    /\ (32%Z <> 3%Z -> shape t <> [2; 5; Z.to_nat 32]).
Proof.
  apply (BallQuery_forward_shape_ignores_nsample demo_pointnet echo_kernel 0
           1%Z 32%Z (dense 0 [2; 4; 3] Float32) (dense 1 [2; 5; 3] Float32)
           2 4 5 demo_state).
  - reflexivity.
  - exact echo_kernel_fills.
  - reflexivity.
  - reflexivity.
Defined.

(** C9: the backward passes of furthest-point sampling, three-nearest-
    neighbor and ball query return, for every context and every incoming
    gradient, a tuple of None with one entry per argument of the forward
    pass (2, 2 and 4), and do nothing else. *)
Theorem nograd_backward_returns_None (ctx : nat) (a b : value) (s : state) :
  (exists vs, FurthestPointSampling_backward ctx a s = (s, inr (VTuple vs))
              /\ length vs = 2 /\ Forall (fun v => v = VNone) vs)
  /\ (exists vs, ThreeNN_backward ctx a b s = (s, inr (VTuple vs))
                 /\ length vs = 2 /\ Forall (fun v => v = VNone) vs)
  /\ (exists vs, BallQuery_backward ctx a s = (s, inr (VTuple vs))
                 /\ length vs = 4 /\ Forall (fun v => v = VNone) vs).
Proof.
  repeat split; eexists; (split; [reflexivity|]); split;
    try reflexivity; repeat constructor.
Qed.

(** ** The operators that refer to [pointnet2] *)

Ltac split_tuples :=
  repeat match goal with
         | p : (_ * _)%type |- _ => destruct p
         end.

(** Walks down a body to the first reference to [pointnet2]; every
    statement on the way either raises or goes on. *)
Ltac fails_on_lookup :=
  repeat first
    [ apply bind_fails;
      rewrite call_ext_unbound by apply source_globals_pointnet2;
      simpl; eexists; reflexivity
    | apply bind_fails_later; intros; split_tuples; cbv beta iota ].

Lemma ThreeNN_forward_fails fsqrt P ctx unknown known s :
  exists e, (ThreeNN_forward fsqrt (source_globals P) ctx unknown known s).2 = inl e.
Proof. unfold ThreeNN_forward. fails_on_lookup. Qed.

Lemma ThreeInterpolate_forward_fails P ctx points idx weight s :
  exists e,
    (ThreeInterpolate_forward (source_globals P) ctx points idx weight s).2 = inl e.
Proof. unfold ThreeInterpolate_forward. fails_on_lookup. Qed.

Lemma GroupPoints_forward_fails P ctx points idx s :
  exists e, (GroupPoints_forward (source_globals P) ctx points idx s).2 = inl e.
Proof. unfold GroupPoints_forward. fails_on_lookup. Qed.

Lemma group_points_fails P points idx s :
  exists e, (group_points (source_globals P) points idx s).2 = inl e.
Proof.
  unfold group_points, apply. apply bind_fails_later. intros c s'.
  apply GroupPoints_forward_fails.
Qed.

Lemma py_assert_true s : py_assert true s = (s, inr tt).
Proof. reflexivity. Qed.

Lemma ThreeNN_forward_lookup fsqrt P ctx unknown known B n m s :
  is_contiguous unknown = true -> is_contiguous known = true ->
  shape unknown = [B; n; 3] -> shape known = [B; m; 3] ->
  ThreeNN_forward fsqrt (source_globals P) ctx unknown known s =
    (allocated (allocated s (garbage s (numel [B; n; 3])))
               (garbage (allocated s (garbage s (numel [B; n; 3])))
                        (numel [B; n; 3])),
     inl (NameError "pointnet2")).
Proof.
  intros Hu Hk Hsu Hsk. unfold ThreeNN_forward, size.
  rewrite Hu, Hk, Hsu.
  erewrite bind_ok; [|apply py_assert_true]. cbv beta iota.
  erewrite bind_ok; [|apply py_assert_true]. cbv beta iota.
  erewrite bind_ok; [|reflexivity]. cbv beta iota.
  erewrite bind_ok; [|unfold size_at; rewrite Hsk; reflexivity].
  erewrite bind_ok; [|apply (cuda_tensor_nat _ [B; n; 3])].
  erewrite bind_ok; [|apply (cuda_tensor_nat _ [B; n; 3])].
  erewrite bind_err; [reflexivity|].
  apply call_ext_unbound, source_globals_pointnet2.
Qed.

Lemma ThreeInterpolate_forward_lookup P ctx points idx weight B c m n s :
  is_contiguous points = true -> is_contiguous idx = true ->
  is_contiguous weight = true ->
  shape points = [B; c; m] -> shape idx = [B; n; 3] ->
  exists s',
    ThreeInterpolate_forward (source_globals P) ctx points idx weight s =
      (s', inl (NameError "pointnet2"))
    /\ trace s' = trace s
    /\ ctx_attrs s' ctx !! "three_interpolate_for_backward" =
         Some (VTuple [VTensor idx; VTensor weight; int m]).
Proof.
  intros Hp Hi Hw Hsp Hsi. unfold ThreeInterpolate_forward, size.
  rewrite Hp, Hi, Hw, Hsp.
  erewrite bind_ok; [|apply py_assert_true]. cbv beta iota.
  erewrite bind_ok; [|apply py_assert_true]. cbv beta iota.
  erewrite bind_ok; [|apply py_assert_true]. cbv beta iota.
  erewrite bind_ok; [|reflexivity]. cbv beta iota.
  erewrite bind_ok; [|unfold size_at; rewrite Hsi; reflexivity].
  erewrite bind_ok; [|apply setattr_run]. cbv beta iota.
  erewrite bind_ok; [|apply (cuda_tensor_nat _ [B; c; n])].
  erewrite bind_err; [|apply call_ext_unbound, source_globals_pointnet2].
  eexists. split; [reflexivity|]. split; [reflexivity|].
  unfold ctx_attrs. simpl. rewrite lookup_insert_eq. simpl.
  apply lookup_insert_eq.
Qed.

Lemma GroupPoints_forward_lookup P ctx points idx B C N npoint nsample s :
  is_contiguous points = true -> is_contiguous idx = true ->
  shape points = [B; C; N] -> shape idx = [B; npoint; nsample] ->
  exists s',
    GroupPoints_forward (source_globals P) ctx points (VTensor idx) s =
      (s', inl (NameError "pointnet2"))
    /\ trace s' = trace s /\ ctxs s' = ctxs s.
Proof.
  intros Hp Hi Hsp Hsi. unfold GroupPoints_forward, size.
  rewrite Hp, Hsp.
  erewrite bind_ok; [|apply py_assert_true]. cbv beta iota.
  erewrite bind_ok; [|reflexivity]. cbv beta iota.
  rewrite Hi, Hsi.
  erewrite bind_ok; [|apply py_assert_true]. cbv beta iota.
  erewrite bind_ok; [|reflexivity]. cbv beta iota.
  erewrite bind_ok; [|reflexivity]. cbv beta iota.
  erewrite bind_ok; [|apply (cuda_tensor_nat _ [B; C; npoint; nsample])].
  erewrite bind_err; [|apply call_ext_unbound, source_globals_pointnet2].
  eexists. split; [reflexivity|]. split; reflexivity.
Qed.

Lemma ThreeNN_forward_asserts fsqrt G ctx unknown known s :
  is_contiguous unknown = false \/ is_contiguous known = false ->
  ThreeNN_forward fsqrt G ctx unknown known s = (s, inl AssertionError).
Proof.
  unfold ThreeNN_forward.
  destruct (is_contiguous unknown), (is_contiguous known);
    intros [H|H]; try discriminate H; reflexivity.
Qed.

Lemma ThreeInterpolate_forward_asserts G ctx points idx weight s :
  is_contiguous points = false \/ is_contiguous idx = false
  \/ is_contiguous weight = false ->
  ThreeInterpolate_forward G ctx points idx weight s = (s, inl AssertionError).
Proof.
  unfold ThreeInterpolate_forward.
  destruct (is_contiguous points), (is_contiguous idx), (is_contiguous weight);
    intros [H|[H|H]]; try discriminate H; reflexivity.
Qed.

Lemma GroupPoints_forward_asserts G ctx points idx s :
  is_contiguous points = false \/ is_contiguous idx = false ->
  GroupPoints_forward G ctx points (VTensor idx) s = (s, inl AssertionError).
Proof.
  unfold GroupPoints_forward.
  destruct (is_contiguous points) eqn:Hp, (is_contiguous idx) eqn:Hi;
    intros [H|H]; try discriminate H; unfold bind; simpl; rewrite ?Hi;
    reflexivity.
Qed.

(** C5, as stated, fails: called with a non-contiguous tensor the
    three-nearest-neighbor forward pass stops on its assertion, before the
    reference to [pointnet2] is reached. *)
Lemma ThreeNN_forward_assertion_before_lookup :
  is_contiguous strided_view = false
  /\ ThreeNN_forward (fun w => w) (source_globals demo_pointnet) 0
       strided_view (dense 1 [2; 4; 3] Float32) demo_state
     = (demo_state, inl AssertionError)
  /\ inl AssertionError <> (inl (NameError "pointnet2") : exn + value).
Proof. repeat split. discriminate. Qed.

(** C5, amended: no call to the forward pass of three-nearest-neighbor,
    weighted interpolation or group points returns; with contiguous inputs
    of the documented sizes the failure is the name-resolution error for
    [pointnet2], raised with no kernel invoked; with a non-contiguous
    tensor input the pass fails earlier, on the contiguity assertion, and
    leaves the state as it was. *)
Theorem pointnet2_forward_never_returns
  (fsqrt : Z -> Z) (P : pymodule) (ctx : nat) (s : state) :
  (forall unknown known, exists e,
      (ThreeNN_forward fsqrt (source_globals P) ctx unknown known s).2 = inl e)
  /\ (forall points idx weight, exists e,
      (ThreeInterpolate_forward (source_globals P) ctx points idx weight s).2
        = inl e)
  /\ (forall points idx, exists e,
      (GroupPoints_forward (source_globals P) ctx points idx s).2 = inl e)
  /\ (forall unknown known B n m,
      is_contiguous unknown = true -> is_contiguous known = true ->
      shape unknown = [B; n; 3] -> shape known = [B; m; 3] ->
      exists s',
        ThreeNN_forward fsqrt (source_globals P) ctx unknown known s
          = (s', inl (NameError "pointnet2"))
        /\ trace s' = trace s)
  /\ (forall points idx weight B c m n,
      is_contiguous points = true -> is_contiguous idx = true ->
      is_contiguous weight = true ->
      shape points = [B; c; m] -> shape idx = [B; n; 3] ->
      shape weight = [B; n; 3] ->
      exists s',
        ThreeInterpolate_forward (source_globals P) ctx points idx weight s
          = (s', inl (NameError "pointnet2"))
        /\ trace s' = trace s)
  /\ (forall points idx B C N npoint nsample,
      is_contiguous points = true -> is_contiguous idx = true ->
      shape points = [B; C; N] -> shape idx = [B; npoint; nsample] ->
      exists s',
        GroupPoints_forward (source_globals P) ctx points (VTensor idx) s
          = (s', inl (NameError "pointnet2"))
        /\ trace s' = trace s)
  /\ (forall unknown known,
      is_contiguous unknown = false \/ is_contiguous known = false ->
      ThreeNN_forward fsqrt (source_globals P) ctx unknown known s
        = (s, inl AssertionError))
  /\ (forall points idx weight,
      is_contiguous points = false \/ is_contiguous idx = false
      \/ is_contiguous weight = false ->
      ThreeInterpolate_forward (source_globals P) ctx points idx weight s
        = (s, inl AssertionError))
  /\ (forall points idx,
      is_contiguous points = false \/ is_contiguous idx = false ->
      GroupPoints_forward (source_globals P) ctx points (VTensor idx) s
        = (s, inl AssertionError)).
Proof.
  split; [intros; apply ThreeNN_forward_fails|].
  split; [intros; apply ThreeInterpolate_forward_fails|].
  split; [intros; apply GroupPoints_forward_fails|].
  split; [|split; [|split; [|split; [|split]]]];
    [| | |intros; now apply ThreeNN_forward_asserts
         |intros; now apply ThreeInterpolate_forward_asserts
         |intros; now apply GroupPoints_forward_asserts].
  - intros unknown known B n m Hu Hk Hsu Hsk.
    eexists. split; [now apply (ThreeNN_forward_lookup _ _ _ _ _ B n m)|].
    reflexivity.
  - intros points idx weight B c m n Hp Hi Hw Hsp Hsi _.
    destruct (ThreeInterpolate_forward_lookup P ctx points idx weight B c m n s)
      as (s' & Hr & Ht & _); try assumption.
    exists s'. now split.
  - intros points idx B C N npoint nsample Hp Hi Hsp Hsi.
    destruct (GroupPoints_forward_lookup P ctx points idx B C N npoint nsample s)
      as (s' & Hr & Ht & _); try assumption.
    exists s'. now split.
Qed.

Lemma pointnet2_forward_never_returns_witness :
  (exists s',
     ThreeNN_forward (fun w => w) (source_globals demo_pointnet) 0
       (dense 0 [2; 4; 3] Float32) (dense 1 [2; 5; 3] Float32) demo_state
       = (s', inl (NameError "pointnet2"))
     /\ trace s' = trace demo_state)
  /\ (exists s',
     ThreeInterpolate_forward (source_globals demo_pointnet) 0
       (dense 0 [2; 3; 4] Float32) (dense 1 [2; 4; 3] Int32)
       (dense 1 [2; 4; 3] Float32) demo_state
       = (s', inl (NameError "pointnet2"))
     /\ trace s' = trace demo_state)
  /\ (exists s',
     GroupPoints_forward (source_globals demo_pointnet) 0
       (dense 0 [2; 3; 4] Float32) (VTensor (dense 1 [2; 4; 3] Int32)) demo_state
       = (s', inl (NameError "pointnet2"))
     /\ trace s' = trace demo_state)
  /\ ThreeNN_forward (fun w => w) (source_globals demo_pointnet) 0
       strided_view (dense 1 [2; 5; 3] Float32) demo_state
     = (demo_state, inl AssertionError)
  /\ (exists s',
     ThreeNN_forward (fun w => w) (source_globals demo_pointnet) 0
       (Tensor 0 0 [2; 0; 3] [3; 3; 1] Float32) (dense 1 [2; 5; 3] Float32)
       demo_state
       = (s', inl (NameError "pointnet2"))
     /\ trace s' = trace demo_state).
Proof.
  destruct (pointnet2_forward_never_returns (fun w => w) demo_pointnet 0 demo_state)
    as (_ & _ & _ & Hnn & Hint & Hgrp & Hann & _ & _).
  split; [|split; [|split; [|split]]].
  - apply (Hnn _ _ 2 4 5); reflexivity.
  - apply (Hint _ _ _ 2 3 4 4); reflexivity.
  - apply (Hgrp _ _ 2 3 4 4 3); reflexivity.
  - apply Hann. left. reflexivity.
  - apply (Hnn _ _ 2 0 5); reflexivity.
Defined.

(** C8: the three-nearest-neighbor forward pass returns neither distances
    nor indices.  With contiguous query points (B, n, 3) and reference
    points (B, m, 3) it allocates the two (B, n, 3) buffers and then raises
    the name-resolution error for [pointnet2]: the kernel is not invoked and
    no square root is taken. *)
Theorem ThreeNN_forward_raises_NameError
  (fsqrt : Z -> Z) (P : pymodule) (ctx : nat) (unknown known : tensor)
  (B n m : nat) (s : state) :
  is_contiguous unknown = true -> is_contiguous known = true ->
  shape unknown = [B; n; 3] -> shape known = [B; m; 3] ->
  exists s',
    ThreeNN_forward fsqrt (source_globals P) ctx unknown known s
      = (s', inl (NameError "pointnet2"))
    /\ trace s' = trace s
    /\ forall dist idx,
        (ThreeNN_forward fsqrt (source_globals P) ctx unknown known s).2
          <> inr (VTuple [VTensor dist; VTensor idx]).
Proof.
  intros Hu Hk Hsu Hsk.
  rewrite (ThreeNN_forward_lookup fsqrt P ctx unknown known B n m s Hu Hk Hsu Hsk).
  eexists. split; [reflexivity|]. split; [reflexivity|].
  intros dist idx. discriminate.
Qed.

Lemma ThreeNN_forward_raises_NameError_witness :
  exists s',
    ThreeNN_forward (fun w => w) (source_globals demo_pointnet) 0
      (dense 0 [1; 2; 3] Float32) (dense 1 [1; 4; 3] Float32) demo_state
      = (s', inl (NameError "pointnet2"))
    /\ trace s' = trace demo_state
    /\ forall dist idx,
        (ThreeNN_forward (fun w => w) (source_globals demo_pointnet) 0
           (dense 0 [1; 2; 3] Float32) (dense 1 [1; 4; 3] Float32) demo_state).2
          <> inr (VTuple [VTensor dist; VTensor idx]).
Proof.
  apply (ThreeNN_forward_raises_NameError (fun w => w) demo_pointnet 0
           (dense 0 [1; 2; 3] Float32) (dense 1 [1; 4; 3] Float32) 1 2 4
           demo_state); reflexivity.
Defined.

(** C3: the forward pass of the query-and-group helper never returns a
    tensor.  Whatever the inputs, the use_xyz setting and the behaviour of
    the ball query kernel, it ends in an exception: at the latest when its
    first use of group points reaches the reference to [pointnet2]. *)
Theorem QueryAndGroup_forward_never_returns
  (fsub : Z -> Z -> Z) (P : pymodule) (self : QueryAndGroup)
  (xyz new_xyz : tensor) (points : option tensor) (s : state) :
  exists e,
    (QueryAndGroup_forward fsub (source_globals P) self xyz new_xyz points s).2
      = inl e.
Proof.
  unfold QueryAndGroup_forward.
  apply bind_fails_later. intros idx s1.
  apply bind_fails_later. intros xyz_t s2.
  apply bind_fails_later. intros xyz_trans s3.
  apply bind_fails. apply group_points_fails.
Qed.

(** ** What a forward pass leaves in the context objects *)

Lemma keeps_ret {A} (a : A) : keeps_ctxs (ret a).
Proof. intros s. reflexivity. Qed.

Lemma keeps_raise {A} e : keeps_ctxs (raise e : M A).
Proof. intros s. reflexivity. Qed.

Lemma keeps_bind {A B} (m : M A) (k : A -> M B) :
  keeps_ctxs m -> (forall a, keeps_ctxs (k a)) -> keeps_ctxs (bind m k).
Proof.
  intros Hm Hk s. unfold bind. specialize (Hm s).
  destruct (m s) as [s' [e|a]]; simpl in *; [exact Hm|].
  now rewrite Hk.
Qed.

Lemma keeps_saves {A} c a v (m : M A) : keeps_ctxs m -> saves c a v m.
Proof. intros H s. left. apply H. Qed.

Lemma saves_bind_l {A B} c a v (m : M A) (k : A -> M B) :
  keeps_ctxs m -> (forall x, saves c a v (k x)) -> saves c a v (bind m k).
Proof.
  intros Hm Hk s. unfold bind. specialize (Hm s).
  destruct (m s) as [s' [e|x]]; simpl in *; [now left|].
  destruct (Hk x s') as [H|H]; [left|right]; rewrite H; [exact Hm|].
  unfold ctx_attrs. now rewrite Hm.
Qed.

Lemma saves_bind_r {A B} c a v (m : M A) (k : A -> M B) :
  saves c a v m -> (forall x, keeps_ctxs (k x)) -> saves c a v (bind m k).
Proof.
  intros Hm Hk s. unfold bind. specialize (Hm s).
  destruct (m s) as [s' [e|x]]; simpl in *; [exact Hm|].
  now rewrite Hk.
Qed.

Lemma saves_setattr c a v : saves c a v (setattr c a v).
Proof. intros s. right. reflexivity. Qed.

Lemma keeps_py_assert b : keeps_ctxs (py_assert b).
Proof. destruct b; intros s; reflexivity. Qed.

Lemma keeps_size_at t i : keeps_ctxs (size_at t i).
Proof. unfold size_at. destruct (shape t !! i); intros s; reflexivity. Qed.

Lemma keeps_unpack3 l : keeps_ctxs (unpack3 l).
Proof. destruct l as [|? [|? [|? [|]]]]; intros s; reflexivity. Qed.

Lemma keeps_cuda_tensor dt dims : keeps_ctxs (cuda_tensor dt dims).
Proof. intros s. unfold cuda_tensor. now destruct (forallb _ dims). Qed.

Lemma keeps_call_ext G modname entry args :
  keeps_ctxs (call_ext G modname entry args).
Proof.
  intros s. unfold call_ext.
  destruct (G modname) as [[md|]|]; try reflexivity.
  destruct (md entry) as [f|]; try reflexivity.
  now destruct (f args (mem s)).
Qed.

Lemma keeps_iter_value v : keeps_ctxs (iter_value v).
Proof.
  destruct v as [| | |t| |]; try (intros s; reflexivity).
  unfold iter_value. destruct (shape t), (strides t); intros s; reflexivity.
Qed.

Lemma keeps_unpack_1 v : keeps_ctxs (unpack_1 v).
Proof.
  apply keeps_bind; [apply keeps_iter_value|].
  intros [|? [|]]; intros s; reflexivity.
Qed.

Lemma keeps_as_tensor meth v : keeps_ctxs (as_tensor meth v).
Proof. destruct v; intros s; reflexivity. Qed.

Lemma keeps_torch_sqrt fsqrt t : keeps_ctxs (torch_sqrt fsqrt t).
Proof. intros s. reflexivity. Qed.

Create HintDb ctx_keep.
#[local] Hint Resolve keeps_ret keeps_raise keeps_py_assert keeps_size_at
  keeps_unpack3 keeps_cuda_tensor keeps_call_ext keeps_unpack_1
  keeps_as_tensor keeps_torch_sqrt saves_setattr : ctx_keep.

(** Goes through a body statement by statement. *)
Ltac ctx_walk :=
  repeat first
    [ solve [auto with ctx_keep]
    | apply keeps_bind; [solve [auto with ctx_keep]|]; intros; split_tuples;
      cbv beta iota
    | apply saves_bind_l; [solve [auto with ctx_keep]|]; intros; split_tuples;
      cbv beta iota
    | apply saves_bind_r; [apply saves_setattr|]; intros ].

Lemma FurthestPointSampling_forward_keeps G ctx xyz npoint :
  keeps_ctxs (FurthestPointSampling_forward G ctx xyz npoint).
Proof. unfold FurthestPointSampling_forward. ctx_walk. Qed.

Lemma ThreeNN_forward_keeps fsqrt G ctx unknown known :
  keeps_ctxs (ThreeNN_forward fsqrt G ctx unknown known).
Proof. unfold ThreeNN_forward. ctx_walk. Qed.

Lemma BallQuery_forward_keeps G ctx radius nsample xyz new_xyz :
  keeps_ctxs (BallQuery_forward G ctx radius nsample xyz new_xyz).
Proof. unfold BallQuery_forward. ctx_walk. Qed.

Lemma GatherPoints_forward_saves G ctx points idx s :
  let s' := (GatherPoints_forward G ctx points idx s).1 in
  ctxs s' = ctxs s
  \/ exists B C N,
      shape points = [B; C; N]
      /\ ctxs s' = <[ctx := <["for_backwards" :=
                                VTuple [VTensor idx; int C; int N]]>
                              (ctx_attrs s ctx)]> (ctxs s).
Proof.
  unfold GatherPoints_forward, size.
  destruct (shape points) as [|B [|C [|N [|]]]] eqn:Hsh; try (now left).
  erewrite bind_ok; [|reflexivity]. cbv beta iota zeta.
  match goal with
  | |- ctxs (?m s).1 = _ \/ _ =>
      assert (Hs : saves ctx "for_backwards"
                     (VTuple [VTensor idx; int C; int N]) m) by ctx_walk;
      destruct (Hs s) as [H|H]; [now left|right]
  end.
  exists B, C, N. now split.
Qed.

Lemma ThreeInterpolate_forward_saves G ctx points idx weight s :
  let s' := (ThreeInterpolate_forward G ctx points idx weight s).1 in
  ctxs s' = ctxs s
  \/ exists B c m,
      shape points = [B; c; m]
      /\ ctxs s' = <[ctx := <["three_interpolate_for_backward" :=
                                VTuple [VTensor idx; VTensor weight; int m]]>
                              (ctx_attrs s ctx)]> (ctxs s).
Proof.
  unfold ThreeInterpolate_forward, size.
  destruct (is_contiguous points); [|now left].
  erewrite bind_ok; [|apply py_assert_true]. cbv beta iota.
  destruct (is_contiguous idx); [|now left].
  erewrite bind_ok; [|apply py_assert_true]. cbv beta iota.
  destruct (is_contiguous weight); [|now left].
  erewrite bind_ok; [|apply py_assert_true]. cbv beta iota.
  destruct (shape points) as [|B [|c [|m [|]]]] eqn:Hsh; try (now left).
  erewrite bind_ok; [|reflexivity]. cbv beta iota zeta.
  match goal with
  | |- ctxs (?k s).1 = _ \/ _ =>
      assert (Hs : saves ctx "three_interpolate_for_backward"
                     (VTuple [VTensor idx; VTensor weight; int m]) k) by ctx_walk;
      destruct (Hs s) as [H|H]; [now left|right]
  end.
  exists B, c, m. now split.
Qed.

Lemma GroupPoints_forward_saves G ctx points idx s :
  let s' := (GroupPoints_forward G ctx points idx s).1 in
  ctxs s' = ctxs s
  \/ exists B C N,
      shape points = [B; C; N]
      /\ ctxs s' = <[ctx := <["for_backwards" := VTuple [idx; int N]]>
                              (ctx_attrs s ctx)]> (ctxs s).
Proof.
  unfold GroupPoints_forward, size.
  destruct (is_contiguous points); [|now left].
  erewrite bind_ok; [|apply py_assert_true]. cbv beta iota.
  destruct idx as [| | |idx_t| |]; try (now left).
  erewrite bind_ok; [|reflexivity]. cbv beta iota.
  destruct (is_contiguous idx_t); [|now left].
  erewrite bind_ok; [|apply py_assert_true]. cbv beta iota.
  destruct (shape idx_t) as [|B' [|np [|ns [|]]]]; try (now left).
  erewrite bind_ok; [|reflexivity]. cbv beta iota zeta.
  destruct (shape points) as [|B [|C [|N [|]]]] eqn:Hsh; try (now left).
  erewrite bind_ok; [|reflexivity]. cbv beta iota zeta.
  match goal with
  | |- ctxs (?k s).1 = _ \/ _ =>
      assert (Hs : saves ctx "for_backwards"
                     (VTuple [VTensor idx_t; int N]) k) by ctx_walk;
      destruct (Hs s) as [H|H]; [now left|right]
  end.
  exists B, C, N. now split.
Qed.

Lemma retains_unchanged s s' c t :
  ctxs s' = ctxs s -> retains s' c t -> retains s c t.
Proof. unfold retains, ctx_attrs. now intros ->. Qed.

Lemma retains_after_save s s' c a v c' t :
  ctxs s' = <[c := <[a := v]> (ctx_attrs s c)]> (ctxs s) ->
  retains s' c' t ->
  retains s c' t \/ (c' = c /\ t ∈ tensors_of v).
Proof.
  intros Hs (a' & v' & Hlook & Hin). unfold ctx_attrs in Hlook.
  rewrite Hs in Hlook.
  destruct (decide (c' = c)) as [->|Hc].
  - rewrite lookup_insert_eq in Hlook. simpl in Hlook.
    destruct (decide (a' = a)) as [->|Ha].
    + rewrite lookup_insert_eq in Hlook. injection Hlook as <-. now right.
    + rewrite lookup_insert_ne in Hlook by congruence.
      left. now exists a', v'.
  - rewrite lookup_insert_ne in Hlook by congruence.
    left. now exists a', v'.
Qed.

(** C4, as stated, fails: the forward pass of weighted interpolation keeps
    the weight tensor, a floating-point tensor that is not the index tensor,
    in its context object. *)
Lemma ThreeInterpolate_forward_retains_weight :
  let points := dense 0 [2; 3; 4] Float32 in
  let idx := dense 1 [2; 4; 3] Int32 in
  let weight := dense 1 [2; 4; 3] Float32 in
  let s' := (ThreeInterpolate_forward (source_globals demo_pointnet) 0
               points idx weight demo_state).1 in
  retains s' 0 weight /\ weight <> idx /\ elem_type weight = Float32
  /\ ~ retains demo_state 0 weight.
Proof.
  cbv zeta. split; [|split; [discriminate|split; [reflexivity|]]].
  - exists "three_interpolate_for_backward",
      (VTuple [VTensor (dense 1 [2; 4; 3] Int32);
               VTensor (dense 1 [2; 4; 3] Float32); int 4]).
    split; [vm_compute; reflexivity|].
    simpl. apply list_elem_of_In. simpl. auto.
  - intros (a & v & Hlook & _). unfold ctx_attrs in Hlook. simpl in Hlook.
    rewrite lookup_empty in Hlook. simpl in Hlook.
    rewrite lookup_empty in Hlook. discriminate.
Qed.

(** C4, amended: the only tensors a forward pass leaves in a context object
    are the index tensor (gather points, group points, weighted
    interpolation) and, for weighted interpolation, the weight tensor;
    furthest-point sampling, three-nearest-neighbor and ball query leave
    none, and no operator keeps its feature or coordinate tensor.  This
    holds in every name space and for every behaviour of the kernels. *)
Theorem forward_retains_index_and_weight_only
  (fsqrt : Z -> Z) (G : globals) (ctx c : nat) (t : tensor) (s : state) :
  (forall xyz npoint,
      retains (FurthestPointSampling_forward G ctx xyz npoint s).1 c t ->
      retains s c t)
  /\ (forall unknown known,
      retains (ThreeNN_forward fsqrt G ctx unknown known s).1 c t ->
      retains s c t)
  /\ (forall radius nsample xyz new_xyz,
      retains (BallQuery_forward G ctx radius nsample xyz new_xyz s).1 c t ->
      retains s c t)
  /\ (forall points idx,
      retains (GatherPoints_forward G ctx points idx s).1 c t ->
      retains s c t \/ (c = ctx /\ t = idx))
  /\ (forall points idx,
      retains (GroupPoints_forward G ctx points (VTensor idx) s).1 c t ->
      retains s c t \/ (c = ctx /\ t = idx))
  /\ (forall points idx weight,
      retains (ThreeInterpolate_forward G ctx points idx weight s).1 c t ->
      retains s c t \/ (c = ctx /\ (t = idx \/ t = weight))).
Proof.
  repeat split.
  - intros xyz npoint. apply retains_unchanged,
      FurthestPointSampling_forward_keeps.
  - intros unknown known. apply retains_unchanged, ThreeNN_forward_keeps.
  - intros radius nsample xyz new_xyz.
    apply retains_unchanged, BallQuery_forward_keeps.
  - intros points idx Hr.
    destruct (GatherPoints_forward_saves G ctx points idx s)
      as [H|(B & C & N & _ & H)].
    + left. exact (retains_unchanged _ _ _ _ H Hr).
    + destruct (retains_after_save _ _ _ _ _ _ _ H Hr) as [?|[-> Hin]];
        [now left|right].
      split; [reflexivity|]. unfold int in Hin. simpl in Hin.
      apply list_elem_of_In in Hin. simpl in Hin. now destruct Hin as [<-|[]].
  - intros points idx Hr.
    destruct (GroupPoints_forward_saves G ctx points (VTensor idx) s)
      as [H|(B & C & N & _ & H)].
    + left. exact (retains_unchanged _ _ _ _ H Hr).
    + destruct (retains_after_save _ _ _ _ _ _ _ H Hr) as [?|[-> Hin]];
        [now left|right].
      split; [reflexivity|]. unfold int in Hin. simpl in Hin.
      apply list_elem_of_In in Hin. simpl in Hin. now destruct Hin as [<-|[]].
  - intros points idx weight Hr.
    destruct (ThreeInterpolate_forward_saves G ctx points idx weight s)
      as [H|(B & c0 & m & _ & H)].
    + left. exact (retains_unchanged _ _ _ _ H Hr).
    + destruct (retains_after_save _ _ _ _ _ _ _ H Hr) as [?|[-> Hin]];
        [now left|right].
      split; [reflexivity|]. unfold int in Hin. simpl in Hin.
      apply list_elem_of_In in Hin. simpl in Hin.
      destruct Hin as [<-|[<-|[]]]; [now left|now right].
Qed.

Lemma forward_retains_index_and_weight_only_witness :
  let points := dense 0 [2; 3; 4] Float32 in
  let idx := dense 1 [2; 4; 3] Int32 in
  let weight := dense 1 [2; 4; 3] Float32 in
  retains (ThreeInterpolate_forward (source_globals demo_pointnet) 0
             points idx weight demo_state).1 0 weight
  /\ (retains demo_state 0 weight \/ (0 = 0 /\ (weight = idx \/ weight = weight))).
Proof.
  cbv zeta.
  assert (Hr : retains (ThreeInterpolate_forward (source_globals demo_pointnet) 0
                          (dense 0 [2; 3; 4] Float32) (dense 1 [2; 4; 3] Int32)
                          (dense 1 [2; 4; 3] Float32) demo_state).1 0
                       (dense 1 [2; 4; 3] Float32)).
  { exists "three_interpolate_for_backward",
      (VTuple [VTensor (dense 1 [2; 4; 3] Int32);
               VTensor (dense 1 [2; 4; 3] Float32); int 4]).
    split; [vm_compute; reflexivity|].
    simpl. apply list_elem_of_In. simpl. auto. }
  split; [exact Hr|].
  destruct (forward_retains_index_and_weight_only (fun w => w)
              (source_globals demo_pointnet) 0 0 (dense 1 [2; 4; 3] Float32)
              demo_state) as (_ & _ & _ & _ & _ & Hint).
  exact (Hint _ _ _ Hr).
Defined.

(** ** Contiguity assertions and kernel invocations *)

Lemma keeps_trace_bind {A B} (m : M A) (k : A -> M B) :
  keeps_trace m -> (forall a, keeps_trace (k a)) -> keeps_trace (bind m k).
Proof.
  intros Hm Hk s. unfold bind. specialize (Hm s).
  destruct (m s) as [s' [e|a]]; simpl in *; [exact Hm|].
  now rewrite Hk.
Qed.

Lemma keeps_trace_ret {A} (a : A) : keeps_trace (ret a).
Proof. intros s. reflexivity. Qed.

Lemma keeps_trace_setattr c a v : keeps_trace (setattr c a v).
Proof. intros s. reflexivity. Qed.

Lemma keeps_trace_unpack_1 v : keeps_trace (unpack_1 v).
Proof.
  apply keeps_trace_bind.
  - destruct v as [| | |t| |]; try (intros s; reflexivity).
    unfold iter_value. destruct (shape t), (strides t); intros s; reflexivity.
  - intros [|? [|]]; intros s; reflexivity.
Qed.

(** A call to a bound entry point is logged, whatever the kernel does and
    whatever follows, as long as what follows logs nothing. *)
Lemma trace_call_then {B} G modname entry md f args (k : value -> M B) s :
  G modname = Some (ExtModule md) -> md entry = Some f ->
  (forall v, keeps_trace (k v)) ->
  trace (bind (call_ext G modname entry args) k s).1
    = trace s ++ [ECall modname entry args (mem s)].
Proof.
  intros HG Hmd Hk. unfold bind.
  rewrite (call_ext_bound G modname entry md f args s HG Hmd).
  destruct (f args (mem s)) as [h' [e|v]]; simpl; [reflexivity|].
  now rewrite Hk.
Qed.

Lemma FurthestPointSampling_forward_calls P k ctx xyz npoint B rest s :
  P "furthest_point_sampling" = Some k ->
  shape xyz = B :: rest -> (0 <= npoint)%Z ->
  exists out h,
    trace (FurthestPointSampling_forward (source_globals P) ctx xyz npoint s).1
      = trace s ++ [ECall "pointnet" "furthest_point_sampling"
                          [VInt npoint; VTensor xyz; VTensor out] h].
Proof.
  intros HP Hsh Hn. unfold FurthestPointSampling_forward.
  erewrite bind_ok; [|unfold size_at; rewrite Hsh; reflexivity].
  erewrite bind_ok; [|apply cuda_tensor_ok; repeat constructor; [lia|exact Hn]].
  eexists _, _.
  rewrite (trace_call_then _ _ _ P k); [reflexivity|reflexivity|exact HP|].
  intros v. apply keeps_trace_bind; [apply keeps_trace_unpack_1|].
  intros x. apply keeps_trace_ret.
Qed.

Lemma GatherPoints_forward_calls P k ctx points idx B C N B' npoint rest s :
  P "gather_points" = Some k ->
  shape points = [B; C; N] -> shape idx = B' :: npoint :: rest ->
  exists out h,
    trace (GatherPoints_forward (source_globals P) ctx points idx s).1
      = trace s ++ [ECall "pointnet" "gather_points"
                          [VTensor points; VTensor idx; VTensor out] h].
Proof.
  intros HP Hsp Hsi. unfold GatherPoints_forward, size. rewrite Hsp.
  erewrite bind_ok; [|reflexivity]. cbv beta iota.
  erewrite bind_ok; [|unfold size_at; rewrite Hsi; reflexivity].
  erewrite bind_ok; [|apply (cuda_tensor_nat _ [B; C; npoint])].
  eexists _, _.
  rewrite (trace_call_then _ _ _ P k); [reflexivity|reflexivity|exact HP|].
  intros v. apply keeps_trace_bind; [apply keeps_trace_unpack_1|].
  intros x. apply keeps_trace_bind; [apply keeps_trace_setattr|].
  intros _. apply keeps_trace_ret.
Qed.

Lemma BallQuery_forward_calls P k ctx radius nsample xyz new_xyz
  B rest B' npoint rest' s :
  P "ball_query" = Some k ->
  shape xyz = B :: rest -> shape new_xyz = B' :: npoint :: rest' ->
  exists out h,
    trace (BallQuery_forward (source_globals P) ctx radius nsample xyz new_xyz s).1
      = trace s ++ [ECall "pointnet" "ball_query"
                          [VFloat radius; VInt nsample; VTensor xyz;
                           VTensor new_xyz; VTensor out] h].
Proof.
  intros HP Hsx Hsn. unfold BallQuery_forward.
  erewrite bind_ok; [|unfold size_at; rewrite Hsx; reflexivity].
  erewrite bind_ok; [|unfold size_at; rewrite Hsn; reflexivity].
  erewrite bind_ok; [|apply (cuda_tensor_nat _ [B; npoint; 3])].
  eexists _, _.
  rewrite (trace_call_then _ _ _ P k); [reflexivity|reflexivity|exact HP|].
  intros v. apply keeps_trace_bind; [apply keeps_trace_unpack_1|].
  intros x. apply keeps_trace_ret.
Qed.

(** C2, as stated, fails: gather points makes no contiguity assertion.
    Called with a non-contiguous feature tensor it invokes its kernel and
    returns. *)
Lemma GatherPoints_forward_takes_noncontiguous :
  let idx := dense 1 [2; 5] Int32 in
  let out := dense 2 [2; 4; 5] Float32 in
  let r := GatherPoints_forward (source_globals demo_pointnet) 0
             strided_view idx demo_state in
  is_contiguous strided_view = false
  /\ r.2 = inr (VTensor out)
  /\ trace r.1 = [ECall "pointnet" "gather_points"
                        [VTensor strided_view; VTensor idx; VTensor out]
                        (<[2 := replicate 40 7%Z]> (mem demo_state))].
Proof. cbv zeta. split; [reflexivity|]. split; vm_compute; reflexivity. Qed.

(** C2, amended: three-nearest-neighbor, weighted interpolation and group
    points assert the contiguity of each tensor input first: with a
    non-contiguous input the forward pass fails on the assertion and leaves
    the state as it was, so that nothing is allocated and no kernel is
    invoked.  Furthest-point sampling, gather points and ball query make no
    such assertion: whatever the layout of their inputs, they invoke their
    kernel on them (for furthest-point sampling with a sample count the
    docstring admits, 0 <= npoint < N). *)
Theorem contiguity_asserted_by_three_operators
  (fsqrt : Z -> Z) (G : globals) (P : pymodule) (ctx : nat) (s : state) :
  (forall unknown known,
      is_contiguous unknown = false \/ is_contiguous known = false ->
      ThreeNN_forward fsqrt G ctx unknown known s = (s, inl AssertionError))
  /\ (forall points idx weight,
      is_contiguous points = false \/ is_contiguous idx = false
      \/ is_contiguous weight = false ->
      ThreeInterpolate_forward G ctx points idx weight s
        = (s, inl AssertionError))
  /\ (forall points idx,
      is_contiguous points = false \/ is_contiguous idx = false ->
      GroupPoints_forward G ctx points (VTensor idx) s
        = (s, inl AssertionError))
  /\ (forall k xyz npoint B N,
      P "furthest_point_sampling" = Some k ->
      shape xyz = [B; N; 3] -> (Z.of_nat N < 2 ^ 63)%Z ->
      (0 <= npoint < Z.of_nat N)%Z ->
      exists out h,
        trace (FurthestPointSampling_forward (source_globals P) ctx xyz
                 npoint s).1
          = trace s ++ [ECall "pointnet" "furthest_point_sampling"
                              [VInt npoint; VTensor xyz; VTensor out] h])
  /\ (forall k points idx B C N npoint,
      P "gather_points" = Some k ->
      shape points = [B; C; N] -> shape idx = [B; npoint] ->
      exists out h,
        trace (GatherPoints_forward (source_globals P) ctx points idx s).1
          = trace s ++ [ECall "pointnet" "gather_points"
                              [VTensor points; VTensor idx; VTensor out] h])
  /\ (forall k radius nsample xyz new_xyz B N npoint,
      P "ball_query" = Some k ->
      shape xyz = [B; N; 3] -> shape new_xyz = [B; npoint; 3] ->
      exists out h,
        trace (BallQuery_forward (source_globals P) ctx radius nsample xyz
                 new_xyz s).1
          = trace s ++ [ECall "pointnet" "ball_query"
                              [VFloat radius; VInt nsample; VTensor xyz;
                               VTensor new_xyz; VTensor out] h]).
Proof.
  split; [intros; now apply ThreeNN_forward_asserts|].
  split; [intros; now apply ThreeInterpolate_forward_asserts|].
  split; [intros; now apply GroupPoints_forward_asserts|].
  split; [|split].
  - intros k xyz npoint B N HP Hsh _ [Hn _].
    exact (FurthestPointSampling_forward_calls P k ctx xyz npoint B _ s HP Hsh Hn).
  - intros k points idx B C N npoint HP Hsp Hsi.
    exact (GatherPoints_forward_calls P k ctx points idx B C N B npoint _ s
             HP Hsp Hsi).
  - intros k radius nsample xyz new_xyz B N npoint HP Hsx Hsn.
    exact (BallQuery_forward_calls P k ctx radius nsample xyz new_xyz
             B _ B npoint _ s HP Hsx Hsn).
Qed.

Lemma contiguity_asserted_by_three_operators_witness :
  ThreeNN_forward (fun w => w) (source_globals demo_pointnet) 0 strided_view
    (dense 1 [2; 5; 3] Float32) demo_state = (demo_state, inl AssertionError)
  /\ GroupPoints_forward (source_globals demo_pointnet) 0 strided_view
       (VTensor (dense 1 [2; 4; 3] Int32)) demo_state
     = (demo_state, inl AssertionError)
  /\ exists out h,
       trace (GatherPoints_forward (source_globals demo_pointnet) 0
                strided_view (dense 1 [2; 5] Int32) demo_state).1
         = trace demo_state
           ++ [ECall "pointnet" "gather_points"
                     [VTensor strided_view; VTensor (dense 1 [2; 5] Int32);
                      VTensor out] h].
Proof.
  destruct (contiguity_asserted_by_three_operators (fun w => w)
              (source_globals demo_pointnet) demo_pointnet 0 demo_state)
    as (Hnn & _ & Hgrp & _ & Hgather & _).
  split; [|split].
  - apply Hnn. left. reflexivity.
  - apply Hgrp. left. reflexivity.
  - apply (Hgather echo_kernel _ _ 2 4 3 5); reflexivity.
Defined.

(** ** Gradient buffers *)

Lemma flat_map_seq_blocks d n base :
  flat_map (fun i => seq (base + i * n) n) (seq 0 d) = seq base (d * n).
Proof.
  induction d as [|d IH]; [reflexivity|].
  rewrite seq_S, flat_map_app, IH. simpl.
  rewrite app_nil_r, <- seq_app. f_equal. lia.
Qed.

Lemma stride_of_numel r : numel r <> 0 -> stride_of r = numel r.
Proof.
  induction r as [|d r IH]; [reflexivity|].
  change (numel (d :: r)) with (d * numel r).
  change (stride_of (d :: r)) with (Nat.max d 1 * stride_of r).
  intros Hne. rewrite IH by nia. f_equal. nia.
Qed.

Lemma flat_map_nil {A B} (f : A -> list B) (l : list A) :
  (forall a, f a = []) -> flat_map f l = [].
Proof.
  intros Hf. induction l as [|a l IH]; [reflexivity|].
  simpl. now rewrite Hf, IH.
Qed.

Lemma offsets_dense sh base :
  offsets (zip sh (contiguous_strides sh)) base = seq base (numel sh).
Proof.
  revert base. induction sh as [|d r IH]; intros base; [reflexivity|].
  change (numel (d :: r)) with (d * numel r). simpl.
  destruct (Nat.eq_dec (numel r) 0) as [Hz|Hnz].
  - rewrite flat_map_nil; [now rewrite Hz, Nat.mul_0_r|].
    intros i. now rewrite IH, Hz.
  - rewrite (stride_of_numel r Hnz).
    rewrite (flat_map_ext _ (fun i => seq (base + i * numel r) (numel r))).
    + apply flat_map_seq_blocks.
    + intros i. apply IH.
Qed.

Lemma positions_dense a sh dt : positions (dense a sh dt) = seq 0 (numel sh).
Proof. unfold positions, dense. simpl. apply offsets_dense. Qed.



Lemma write_block_range vs : forall k blk,
  k + length vs <= length blk ->
  write_block blk (seq k (length vs)) vs
    = take k blk ++ vs ++ drop (k + length vs) blk.
Proof.
  unfold write_block.
  induction vs as [|v vs IH]; intros k blk Hlen; simpl.
  - rewrite Nat.add_0_r. symmetry. apply take_drop.
  - simpl in Hlen. rewrite IH by (rewrite length_insert; lia).
    rewrite (take_S_r _ k v) by (apply list_lookup_insert_eq; lia).
    rewrite take_insert_ge by lia.
    rewrite drop_insert_lt by lia.
    replace (k + S (length vs)) with (S k + length vs) by lia.
    now rewrite <- app_assoc.
Qed.

Lemma write_block_all blk vs n :
  length blk = n -> length vs = n -> write_block blk (seq 0 n) vs = vs.
Proof.
  intros Hblk Hvs. subst n. rewrite <- Hvs.
  rewrite write_block_range by lia. simpl.
  rewrite drop_ge by lia. apply app_nil_r.
Qed.

(** A newly allocated buffer holds what the device memory held. *)
Lemma allocated_block s content :
  mem (allocated s content) !! fresh (dom (mem s)) = Some content.
Proof. apply lookup_insert_eq. Qed.

Lemma garbage_length s n : length (garbage s n) = n.
Proof. unfold garbage. now rewrite length_map, length_seq. Qed.

(** After [zero_] a newly allocated dense buffer holds zeros. *)
Lemma zero_fresh_block s sh dt :
  let buf := dense (fresh (dom (mem s))) sh dt in
  mem (zero_ buf (allocated s (garbage s (numel sh)))).1
    !! fresh (dom (mem s)) = Some (replicate (numel sh) 0%Z).
Proof.
  cbv zeta. unfold zero_, store. simpl. rewrite lookup_insert_eq. f_equal.
  unfold block. rewrite lookup_insert_eq. simpl.
  rewrite positions_dense.
  apply write_block_all; [apply garbage_length|apply length_replicate].
Qed.

(** [contiguous] leaves the existing blocks alone. *)
Lemma contiguous_keeps_block t s a blk :
  mem s !! a = Some blk -> mem (contiguous t s).1 !! a = Some blk.
Proof.
  intros Hh. unfold contiguous. destruct (is_contiguous t); [exact Hh|].
  simpl. rewrite lookup_insert_ne; [exact Hh|].
  intros Heq. pose proof (fresh_block_lookup (mem s)) as Hf.
  rewrite Heq in Hf. congruence.
Qed.

Lemma contiguous_keeps_trace t s : trace (contiguous t s).1 = trace s.
Proof. unfold contiguous. now destruct (is_contiguous t). Qed.

Lemma contiguous_returns t s : exists c, (contiguous t s).2 = inr c.
Proof. unfold contiguous. destruct (is_contiguous t); eexists; reflexivity. Qed.

Lemma getattr_found c a v s :
  ctx_attrs s c !! a = Some v -> getattr c a s = (s, inr v).
Proof. intros H. unfold getattr. now rewrite H. Qed.

Lemma contiguous_run t s :
  exists c, contiguous t s = ((contiguous t s).1, inr c).
Proof.
  destruct (contiguous_returns t s) as [c Hc]. exists c.
  rewrite <- Hc. now destruct (contiguous t s).
Qed.

Lemma zeroed_dense h a sh dt :
  h !! a = Some (replicate (numel sh) 0%Z) -> zeroed h (dense a sh dt).
Proof.
  intros Hh. exists (replicate (numel sh) 0%Z). split; [exact Hh|].
  rewrite positions_dense. apply Forall_forall. intros o Ho.
  apply elem_of_seq in Ho. apply lookup_replicate_2. lia.
Qed.

(** Weighted interpolation, backward: up to the kernel call no kernel is
    invoked and the (B, c, m) buffer, newly allocated, has been zeroed; the
    call receives that buffer and the pass returns it. *)
Lemma ThreeInterpolate_backward_zeroes G ctx grad_out idx weight m B c n s :
  ctx_attrs s ctx !! "three_interpolate_for_backward"
    = Some (VTuple [idx; weight; int m]) ->
  shape grad_out = [B; c; n] ->
  let grad_points := dense (fresh (dom (mem s))) [B; c; m] Float32 in
  exists s1 grad_out_data,
    ThreeInterpolate_backward G ctx grad_out s
      = bind (call_ext G "pointnet2" "three_interpolate_grad_wrapper"
                [int B; int c; int n; int m; VTensor grad_out_data; idx;
                 weight; VTensor grad_points])
             (fun _ => ret (VTuple [VTensor grad_points; VNone; VNone])) s1
    /\ zeroed (mem s1) grad_points
    /\ trace s1 = trace s.
Proof.
  intros Hattr Hsh gp. unfold ThreeInterpolate_backward, size.
  erewrite bind_ok; [|apply getattr_found, Hattr].
  erewrite bind_ok; [|reflexivity]. cbv beta iota.
  rewrite Hsh.
  erewrite bind_ok; [|reflexivity]. cbv beta iota.
  erewrite bind_ok; [|reflexivity].
  erewrite bind_ok; [|apply (cuda_tensor_nat _ [B; c; m])].
  erewrite bind_ok; [|reflexivity].
  unfold autograd_Variable, data.
  set (s2 := State _ _ _ _).
  destruct (contiguous_run grad_out s2) as [gd Hgd].
  erewrite bind_ok; [|exact Hgd].
  exists (contiguous grad_out s2).1, gd.
  split; [reflexivity|]. split.
  - apply zeroed_dense.
    apply contiguous_keeps_block. apply (zero_fresh_block s [B; c; m] Float32).
  - now rewrite contiguous_keeps_trace.
Qed.

(** Group points, backward: the same with a (B, C, N) buffer. *)
Lemma GroupPoints_backward_zeroes G ctx grad_out idx N B C npoint nsample s :
  ctx_attrs s ctx !! "for_backwards" = Some (VTuple [idx; int N]) ->
  shape grad_out = [B; C; npoint; nsample] ->
  let grad_points := dense (fresh (dom (mem s))) [B; C; N] Float32 in
  exists s1 grad_out_data,
    GroupPoints_backward G ctx grad_out s
      = bind (call_ext G "pointnet2" "group_points_grad_wrapper"
                [int B; int C; int N; int npoint; int nsample;
                 VTensor grad_out_data; idx; VTensor grad_points])
             (fun _ => ret (VTuple [VTensor grad_points; VNone])) s1
    /\ zeroed (mem s1) grad_points
    /\ trace s1 = trace s.
Proof.
  intros Hattr Hsh gp. unfold GroupPoints_backward, size.
  erewrite bind_ok; [|apply getattr_found, Hattr].
  erewrite bind_ok; [|reflexivity]. cbv beta iota.
  rewrite Hsh.
  erewrite bind_ok; [|reflexivity]. cbv beta iota.
  erewrite bind_ok; [|reflexivity].
  erewrite bind_ok; [|apply (cuda_tensor_nat _ [B; C; N])].
  erewrite bind_ok; [|reflexivity].
  unfold autograd_Variable, data.
  set (s2 := State _ _ _ _).
  destruct (contiguous_run grad_out s2) as [gd Hgd].
  erewrite bind_ok; [|exact Hgd].
  exists (contiguous grad_out s2).1, gd.
  split; [reflexivity|]. split.
  - apply zeroed_dense.
    apply contiguous_keeps_block. apply (zero_fresh_block s [B; C; N] Float32).
  - now rewrite contiguous_keeps_trace.
Qed.

(** Gather points, backward: the kernel call receives the (B, C, N) buffer
    as allocated, its block holding the words the device memory held. *)
Lemma GatherPoints_backward_uninitialised G ctx grad_out idx B npoint C N s :
  ctx_attrs s ctx !! "for_backwards"
    = Some (VTuple [VTensor idx; int C; int N]) ->
  shape idx = [B; npoint] ->
  let grad_points := dense (fresh (dom (mem s))) [B; C; N] Float32 in
  exists s1,
    GatherPoints_backward G ctx grad_out s
      = bind (call_ext G "pointnet" "gather_points_grad"
                [VTensor grad_out; VTensor idx; VTensor grad_points])
             (fun r => let* grad_points := unpack_1 r in
                       let* _ := print grad_points in
                       ret (VTuple [grad_points; VNone])) s1
    /\ mem s1 !! fresh (dom (mem s)) = Some (garbage s (numel [B; C; N]))
    /\ trace s1 = trace s.
Proof.
  intros Hattr Hsh gp. unfold GatherPoints_backward, size.
  erewrite bind_ok; [|apply getattr_found, Hattr].
  erewrite bind_ok; [|reflexivity]. cbv beta iota.
  erewrite bind_ok; [|reflexivity].
  rewrite Hsh.
  erewrite bind_ok; [|reflexivity]. cbv beta iota.
  erewrite bind_ok; [|reflexivity].
  erewrite bind_ok; [|reflexivity].
  erewrite bind_ok; [|apply (cuda_tensor_nat _ [B; C; N])].
  eexists. split; [reflexivity|]. split; [|reflexivity].
  apply allocated_block.
Qed.

(** In the file's own name space the zeroed buffer is never handed over:
    the kernel reference fails. *)
Lemma ThreeInterpolate_backward_source P ctx grad_out idx weight m B c n s :
  ctx_attrs s ctx !! "three_interpolate_for_backward"
    = Some (VTuple [idx; weight; int m]) ->
  shape grad_out = [B; c; n] ->
  exists s1,
    ThreeInterpolate_backward (source_globals P) ctx grad_out s
      = (s1, inl (NameError "pointnet2"))
    /\ zeroed (mem s1) (dense (fresh (dom (mem s))) [B; c; m] Float32)
    /\ trace s1 = trace s.
Proof.
  intros Hattr Hsh.
  destruct (ThreeInterpolate_backward_zeroes (source_globals P) ctx grad_out
              idx weight m B c n s Hattr Hsh) as (s1 & gd & Hrun & Hz & Ht).
  exists s1. split; [|now split].
  rewrite Hrun. apply bind_err, call_ext_unbound, source_globals_pointnet2.
Qed.

Lemma GroupPoints_backward_source P ctx grad_out idx N B C npoint nsample s :
  ctx_attrs s ctx !! "for_backwards" = Some (VTuple [idx; int N]) ->
  shape grad_out = [B; C; npoint; nsample] ->
  exists s1,
    GroupPoints_backward (source_globals P) ctx grad_out s
      = (s1, inl (NameError "pointnet2"))
    /\ zeroed (mem s1) (dense (fresh (dom (mem s))) [B; C; N] Float32)
    /\ trace s1 = trace s.
Proof.
  intros Hattr Hsh.
  destruct (GroupPoints_backward_zeroes (source_globals P) ctx grad_out
              idx N B C npoint nsample s Hattr Hsh)
    as (s1 & gd & Hrun & Hz & Ht).
  exists s1. split; [|now split].
  rewrite Hrun. apply bind_err, call_ext_unbound, source_globals_pointnet2.
Qed.

(** With a [pointnet2] module in the name space, the kernel is invoked on
    a memory in which the buffer holds zeros. *)
Lemma ThreeInterpolate_backward_linked G md k ctx grad_out idx weight m B c n s :
  G "pointnet2" = Some (ExtModule md) ->
  md "three_interpolate_grad_wrapper" = Some k ->
  ctx_attrs s ctx !! "three_interpolate_for_backward"
    = Some (VTuple [idx; weight; int m]) ->
  shape grad_out = [B; c; n] ->
  exists args h,
    trace (ThreeInterpolate_backward G ctx grad_out s).1
      = trace s ++ [ECall "pointnet2" "three_interpolate_grad_wrapper" args h]
    /\ last args = Some (VTensor (dense (fresh (dom (mem s))) [B; c; m] Float32))
    /\ zeroed h (dense (fresh (dom (mem s))) [B; c; m] Float32).
Proof.
  intros HG Hmd Hattr Hsh.
  destruct (ThreeInterpolate_backward_zeroes G ctx grad_out idx weight m B c n
              s Hattr Hsh) as (s1 & gd & Hrun & Hz & Ht).
  eexists _, (mem s1). rewrite Hrun.
  rewrite (trace_call_then G _ _ md k); [|exact HG|exact Hmd|].
  - rewrite Ht. split; [reflexivity|]. split; [reflexivity|exact Hz].
  - intros v. apply keeps_trace_ret.
Qed.

Lemma trace_after_unpack_print v s :
  exists rest,
    trace ((let* grad_points := unpack_1 v in
            let* _ := print grad_points in
            ret (VTuple [grad_points; VNone])) s).1 = trace s ++ rest.
Proof.
  unfold bind. pose proof (keeps_trace_unpack_1 v s) as Hk.
  destruct (unpack_1 v s) as [s2 [e|x]]; simpl in *.
  - exists []. now rewrite app_nil_r.
  - exists [EPrint x]. now rewrite Hk.
Qed.

(** Gather points in the file's own name space: the kernel is invoked on a
    memory in which the block of the buffer holds what was there at
    allocation. *)
Lemma GatherPoints_backward_source P k ctx grad_out idx B npoint C N s :
  P "gather_points_grad" = Some k ->
  ctx_attrs s ctx !! "for_backwards"
    = Some (VTuple [VTensor idx; int C; int N]) ->
  shape idx = [B; npoint] ->
  let grad_points := dense (fresh (dom (mem s))) [B; C; N] Float32 in
  exists h rest,
    trace (GatherPoints_backward (source_globals P) ctx grad_out s).1
      = trace s ++ ECall "pointnet" "gather_points_grad"
                         [VTensor grad_out; VTensor idx; VTensor grad_points] h
                   :: rest
    /\ h !! fresh (dom (mem s)) = Some (garbage s (numel [B; C; N])).
Proof.
  intros HP Hattr Hsh. cbv zeta.
  destruct (GatherPoints_backward_uninitialised (source_globals P) ctx grad_out
              idx B npoint C N s Hattr Hsh) as (s1 & Hrun & Hg & Ht).
  exists (mem s1). rewrite Hrun. unfold bind at 1.
  rewrite (call_ext_bound _ _ _ P k); [|reflexivity|exact HP].
  destruct (k _ (mem s1)) as [h' [e|v]]; cbn [fst snd].
  - exists []. simpl. now rewrite Ht.
  - match goal with
    | |- exists rest, trace (_ ?st).1 = _ /\ _ =>
        destruct (trace_after_unpack_print v st) as [rest Hrest]
    end.
    exists rest. rewrite Hrest. simpl. rewrite Ht, <- app_assoc. now split.
Qed.

(** C10: the backward passes of weighted interpolation and group points
    hand no gradient buffer to a kernel and return none.  Called on a
    context that holds what the forward pass stores, each allocates its
    buffer, of sizes (B, c, m) and (B, C, N), and zeroes it, and then
    raises the name-resolution error for [pointnet2]: no kernel is invoked
    and nothing is returned.  The backward pass of gather points does hand
    its kernel a newly allocated (B, C, N) buffer, whose block holds the
    words the device memory held: it is not zeroed. *)
Theorem gradient_buffers_zeroed_then_lookup_fails
  (P : pymodule) (ctx : nat) (grad_out : tensor) (s : state) :
  let a := fresh (dom (mem s)) in
  mem s !! a = None
  /\ (forall idx weight m B c n,
      ctx_attrs s ctx !! "three_interpolate_for_backward"
        = Some (VTuple [idx; weight; int m]) ->
      shape grad_out = [B; c; n] ->
      exists s1,
        ThreeInterpolate_backward (source_globals P) ctx grad_out s
          = (s1, inl (NameError "pointnet2"))
        /\ zeroed (mem s1) (dense a [B; c; m] Float32)
        /\ trace s1 = trace s)
  /\ (forall idx N B C npoint nsample,
      ctx_attrs s ctx !! "for_backwards" = Some (VTuple [idx; int N]) ->
      shape grad_out = [B; C; npoint; nsample] ->
      exists s1,
        GroupPoints_backward (source_globals P) ctx grad_out s
          = (s1, inl (NameError "pointnet2"))
        /\ zeroed (mem s1) (dense a [B; C; N] Float32)
        /\ trace s1 = trace s)
  /\ (forall k idx B npoint C N,
      P "gather_points_grad" = Some k ->
      ctx_attrs s ctx !! "for_backwards"
        = Some (VTuple [VTensor idx; int C; int N]) ->
      shape idx = [B; npoint] ->
      exists h rest,
        trace (GatherPoints_backward (source_globals P) ctx grad_out s).1
          = trace s ++ ECall "pointnet" "gather_points_grad"
                             [VTensor grad_out; VTensor idx;
                              VTensor (dense a [B; C; N] Float32)] h
                       :: rest
        /\ h !! a = Some (garbage s (numel [B; C; N]))).
Proof.
  cbv zeta. split; [apply fresh_block_lookup|]. split; [|split].
  - intros idx weight m B c n Hattr Hsh.
    exact (ThreeInterpolate_backward_source P ctx grad_out idx weight m B c n s
             Hattr Hsh).
  - intros idx N B C npoint nsample Hattr Hsh.
    exact (GroupPoints_backward_source P ctx grad_out idx N B C npoint nsample s
             Hattr Hsh).
  - intros k idx B npoint C N HP Hattr Hsh.
    exact (GatherPoints_backward_source P k ctx grad_out idx B npoint C N s
             HP Hattr Hsh).
Qed.

Lemma gradient_buffers_zeroed_then_lookup_fails_witness :
  let idx := dense 1 [1; 2; 3] Int32 in
  let weight := dense 1 [1; 2; 3] Float32 in
  let s := demo_state_with "three_interpolate_for_backward"
             (VTuple [VTensor idx; VTensor weight; int 4]) in
  exists s1,
    ThreeInterpolate_backward (source_globals demo_pointnet) 0
      (dense 0 [1; 3; 2] Float32) s
      = (s1, inl (NameError "pointnet2"))
    /\ zeroed (mem s1) (dense (fresh (dom (mem s))) [1; 3; 4] Float32)
    /\ trace s1 = trace s.
Proof.
  cbv zeta.
  destruct (gradient_buffers_zeroed_then_lookup_fails demo_pointnet 0
              (dense 0 [1; 3; 2] Float32)
              (demo_state_with "three_interpolate_for_backward"
                 (VTuple [VTensor (dense 1 [1; 2; 3] Int32);
                          VTensor (dense 1 [1; 2; 3] Float32); int 4])))
    as (_ & Hint & _ & _).
  apply (Hint (VTensor (dense 1 [1; 2; 3] Int32))
              (VTensor (dense 1 [1; 2; 3] Float32)) 4 1 3 2); reflexivity.
Defined.

(** The two experiments side by side: the buffer the interpolation
    gradient kernel sees holds zeros, the one the gather gradient kernel
    sees holds the 7s of the device memory. *)
Example backward_buffers_seen_by_kernels :
  let idx := dense 1 [2; 2] Int32 in
  trace (ThreeInterpolate_backward
           (linked_globals demo_pointnet demo_pointnet2) 0
           (dense 0 [1; 2; 3] Float32)
           (demo_state_with "three_interpolate_for_backward"
              (VTuple [VTensor idx; VTensor idx; int 2]))).1
    = [ECall "pointnet2" "three_interpolate_grad_wrapper"
             [int 1; int 2; int 3; int 2; VTensor (dense 0 [1; 2; 3] Float32);
              VTensor idx; VTensor idx; VTensor (dense 2 [1; 2; 2] Float32)]
             (<[2 := replicate 4 0%Z]> (mem demo_state))]
  /\ trace (GatherPoints_backward (source_globals demo_pointnet) 0
              (dense 0 [2; 1; 2] Float32)
              (demo_state_with "for_backwards"
                 (VTuple [VTensor idx; int 1; int 2]))).1
     = [ECall "pointnet" "gather_points_grad"
              [VTensor (dense 0 [2; 1; 2] Float32); VTensor idx;
               VTensor (dense 2 [2; 1; 2] Float32)]
              (<[2 := replicate 4 7%Z]> (mem demo_state));
        EPrint (VTensor (dense 2 [2; 1; 2] Float32))].
Proof. cbv zeta. split; vm_compute; reflexivity. Qed.

(** The query-and-group helper at a concrete input: the call ends in the
    name-resolution error, with use_xyz set or not. *)
Example QueryAndGroup_forward_demo :
  forall use_xyz,
    (QueryAndGroup_forward Z.sub (source_globals demo_pointnet)
       {| radius := 1; nsample := 3; use_xyz := use_xyz |}
       (dense 0 [1; 4; 3] Float32) (dense 1 [1; 2; 3] Float32)
       (Some (dense 0 [1; 5; 4] Float32)) demo_state).2
    = inl (NameError "pointnet2").
Proof. intros [|]; vm_compute; reflexivity. Qed.

(** Were [pointnet2] bound, the helper would hand back the function
    [group_points] when use_xyz is off, and a tensor whose last dimension
    is the 3 of the ball query buffer when it is on. *)
Example QueryAndGroup_forward_linked_demo :
  (QueryAndGroup_forward Z.sub (linked_globals demo_pointnet demo_pointnet2)
     {| radius := 1; nsample := 2; use_xyz := false |}
     (dense 0 [1; 4; 3] Float32) (dense 1 [1; 2; 3] Float32)
     (Some (dense 0 [1; 5; 4] Float32)) demo_state).2
  = inr (VFunction "group_points")
  /\ (QueryAndGroup_forward Z.sub (linked_globals demo_pointnet demo_pointnet2)
        {| radius := 1; nsample := 2; use_xyz := true |}
        (dense 0 [1; 4; 3] Float32) (dense 1 [1; 2; 3] Float32)
        (Some (dense 0 [1; 5; 4] Float32)) demo_state).2
     = inr (VTensor (dense 6 [1; 8; 2; 3] Float32)).
Proof. split; vm_compute; reflexivity. Qed.

(** ** GroupAll *)

Lemma transpose_1_2 t a b c s0 s1 s2 s :
  shape t = [a; b; c] -> strides t = [s0; s1; s2] ->
  transpose 1 2 t s
    = (s, inr (Tensor (storage t) (offset t) [a; c; b] [s0; s2; s1] (elem_type t))).
Proof. intros Hsh Hst. unfold transpose. now rewrite Hsh, Hst. Qed.

Lemma unsqueeze_2 t a b c s0 s1 s2 s :
  shape t = [a; b; c] -> strides t = [s0; s1; s2] ->
  unsqueeze 2 t s
    = (s, inr (Tensor (storage t) (offset t) [a; b; 1; c] [s0; s1; c * s2; s2]
                      (elem_type t))).
Proof.
  intros Hsh Hst. unfold unsqueeze. rewrite Hsh, Hst.
  destruct (decide _) as [_|Hn]; [reflexivity|].
  exfalso. apply Hn. simpl. lia.
Qed.

(** The regrouped coordinates: entry (b, d, 0, n) of the view is entry
    (b, n, d) of the point cloud, whatever the memory holds. *)
Lemma regrouped_item h (xyz r : tensor) B N s0 s1 s2 b d n :
  shape xyz = [B; N; 3] -> strides xyz = [s0; s1; s2] ->
  r = Tensor (storage xyz) (offset xyz) [B; 3; 1; N] [s0; s2; N * s1; s1]
             (elem_type xyz) ->
  item h r [b; d; 0; n] = item h xyz [b; n; d].
Proof.
  intros Hsh Hst ->. unfold item. simpl. rewrite Hsh, Hst. simpl.
  repeat case_decide; simpl; try reflexivity; try lia.
  replace (b * s0 + (d * s2 + (n * s1 + 0)))
    with (b * s0 + (n * s1 + (d * s2 + 0))) by lia.
  reflexivity.
Qed.

(** X1: with no features, GroupAll.forward returns a (B, 3, 1, N) view of
    the point cloud itself: nothing is allocated or changed, and entry
    (b, d, 0, n) of the result is coordinate d of point n of batch b. *)
Theorem GroupAll_forward_coordinates_only
  (self : GroupAll) (xyz new_xyz : tensor) (B N s0 s1 s2 : nat) (s : state) :
  shape xyz = [B; N; 3] -> strides xyz = [s0; s1; s2] ->
  exists r,
    GroupAll_forward self xyz new_xyz None s = (s, inr (VTensor r))
    /\ shape r = [B; 3; 1; N]
    /\ storage r = storage xyz
    /\ forall h b d n, item h r [b; d; 0; n] = item h xyz [b; n; d].
Proof.
  intros Hsh Hst. unfold GroupAll_forward.
  erewrite bind_ok; [|apply (transpose_1_2 _ B N 3 s0 s1 s2); assumption].
  erewrite bind_ok; [|apply (unsqueeze_2 _ B 3 N s0 s2 s1); reflexivity].
  eexists. split; [reflexivity|]. split; [reflexivity|]. split; [reflexivity|].
  intros h b d n. simpl. now apply (regrouped_item h xyz _ B N s0 s1 s2).
Qed.

Lemma GroupAll_forward_coordinates_only_witness :
  exists r,
    GroupAll_forward {| GroupAll_use_xyz := true |} (dense 0 [2; 4; 3] Float32)
      (dense 1 [2; 1; 3] Float32) None demo_state
      = (demo_state, inr (VTensor r))
    /\ shape r = [2; 3; 1; 4]
    /\ storage r = storage (dense 0 [2; 4; 3] Float32)
    /\ forall h b d n,
        item h r [b; d; 0; n] = item h (dense 0 [2; 4; 3] Float32) [b; n; d].
Proof.
  apply (GroupAll_forward_coordinates_only _ _ _ 2 4 12 3 1); reflexivity.
Defined.

Lemma transpose_pure i j t s :
  exists r, transpose i j t s = (s, r).
Proof.
  unfold transpose.
  destruct (swap i j (shape t)), (swap i j (strides t)); eexists; reflexivity.
Qed.

Lemma unsqueeze_pure d t s :
  exists r, unsqueeze d t s = (s, r).
Proof. unfold unsqueeze. destruct (decide _); eexists; reflexivity. Qed.

Lemma unsqueeze_ok d t s :
  d <= length (shape t) -> exists r, unsqueeze d t s = (s, inr r).
Proof.
  intros Hd. unfold unsqueeze. rewrite decide_True by exact Hd.
  eexists. reflexivity.
Qed.

Lemma cat_dim1_allocates a b s :
  (exists e, cat_dim1 a b s = (s, inl e))
  \/ (exists content r, cat_dim1 a b s = (allocated s content, inr r)).
Proof.
  unfold cat_dim1.
  destruct (shape a) as [|n [|ca ra]]; try (left; eexists; reflexivity).
  destruct (shape b) as [|n' [|cb rb]]; try (left; eexists; reflexivity).
  destruct (decide _); [right|left]; eexists; try eexists; reflexivity.
Qed.

(** X3: with features given and use_xyz off, GroupAll.forward hands back
    the function [group_points] (line 419 names it where the grouped
    features were meant), not a tensor, and changes nothing. *)
Theorem GroupAll_forward_without_xyz_returns_function
  (xyz new_xyz points : tensor) (B N D s0 s1 s2 : nat) (s : state) :
  shape xyz = [B; N; D] -> strides xyz = [s0; s1; s2] ->
  2 <= length (shape points) ->
  GroupAll_forward {| GroupAll_use_xyz := false |} xyz new_xyz (Some points) s
    = (s, inr (VFunction "group_points")).
Proof.
  intros Hsh Hst Hp. unfold GroupAll_forward.
  erewrite bind_ok; [|apply (transpose_1_2 _ B N D s0 s1 s2); assumption].
  erewrite bind_ok; [|apply (unsqueeze_2 _ B D N s0 s2 s1); reflexivity].
  destruct (unsqueeze_ok 2 points s Hp) as [gp Hgp].
  erewrite bind_ok; [|exact Hgp].
  reflexivity.
Qed.

Lemma GroupAll_forward_without_xyz_returns_function_witness :
  GroupAll_forward {| GroupAll_use_xyz := false |} (dense 0 [2; 4; 3] Float32)
    (dense 1 [2; 1; 3] Float32) (Some (dense 1 [2; 5; 4] Float32)) demo_state
    = (demo_state, inr (VFunction "group_points")).
Proof.
  apply (GroupAll_forward_without_xyz_returns_function _ _ _ 2 4 3 12 3 1).
  - reflexivity.
  - reflexivity.
  - simpl. lia.
Defined.

(** X4: GroupAll.forward refers to no extension module and to no context
    object.  For every input it leaves the state as it was, or adds one
    storage block (the concatenated tensor) and nothing else: no kernel is
    invoked, no context is written, no existing storage is changed. *)
Theorem GroupAll_forward_allocates_at_most_one_block
  (self : GroupAll) (xyz new_xyz : tensor) (points : option tensor) (s : state) :
  let s' := (GroupAll_forward self xyz new_xyz points s).1 in
  s' = s \/ exists content, s' = allocated s content.
Proof.
  cbv zeta. unfold GroupAll_forward, bind.
  destruct (transpose_pure 1 2 xyz s) as [[e|xt] ->]; [now left|].
  destruct (unsqueeze_pure 2 xt s) as [[e|gx] ->]; [now left|].
  destruct points as [pts|]; [|now left].
  destruct (unsqueeze_pure 2 pts s) as [[e|gp] ->]; [now left|].
  destruct (GroupAll_use_xyz self); [|now left].
  destruct (cat_dim1_allocates gx gp s) as [[e ->]|(content & r & ->)].
  - now left.
  - right. now exists content.
Qed.

(** ** Row-major enumeration and single elements *)

Lemma lookup_map {A B} (f : A -> B) (l : list A) i :
  map f l !! i = f <$> l !! i.
Proof.
  revert i. induction l as [|x l IH]; intros [|i]; simpl; auto.
Qed.

Lemma length_flat_map_uniform {A B} (f : A -> list B) L (l : list A) :
  (forall a, length (f a) = L) -> length (flat_map f l) = length l * L.
Proof.
  intros Hf. induction l as [|a l IH]; [reflexivity|].
  simpl. now rewrite length_app, Hf, IH.
Qed.

Lemma flat_map_lookup_uniform {A B} (f : A -> list B) L (l : list A) i r x :
  (forall a, length (f a) = L) -> l !! i = Some x -> r < L ->
  flat_map f l !! (i * L + r) = f x !! r.
Proof.
  intros Hf. revert i. induction l as [|a l IH]; intros i Hi Hr; [discriminate|].
  destruct i as [|i]; simpl in *.
  - injection Hi as ->. apply lookup_app_l. now rewrite Hf.
  - rewrite lookup_app_r by (rewrite Hf; lia).
    rewrite Hf. replace (L + i * L + r - L) with (i * L + r) by lia.
    now apply IH.
Qed.

Lemma length_offsets dims base :
  length (offsets dims base) = numel (dims.*1).
Proof.
  revert base. induction dims as [|[sz st] r IH]; intros base; [reflexivity|].
  simpl. rewrite (length_flat_map_uniform _ (numel (r.*1))).
  - now rewrite length_seq.
  - intros i. apply IH.
Qed.

Lemma flat_index_lt dims idx o :
  index_offset dims idx = Some o -> flat_index (dims.*1) idx < numel (dims.*1).
Proof.
  revert idx o. induction dims as [|[sz st] r IH]; intros [|i idx] o H;
    simpl in *; try discriminate; [unfold numel; simpl; lia|].
  destruct (decide (i < sz)) as [Hi|]; [|discriminate].
  destruct (index_offset r idx) as [o'|] eqn:Ho; [|discriminate].
  specialize (IH idx o' Ho). unfold fmap in IH. nia.
Qed.

(** The enumeration visits the element at a multi-index at its row-major
    position. *)
Lemma offsets_lookup dims : forall idx base o,
  index_offset dims idx = Some o ->
  offsets dims base !! flat_index (dims.*1) idx = Some (base + o).
Proof.
  induction dims as [|[sz st] r IH]; intros [|i idx] base o H;
    simpl in *; try discriminate.
  - injection H as <-. now rewrite Nat.add_0_r.
  - destruct (decide (i < sz)) as [Hi|]; [|discriminate].
    destruct (index_offset r idx) as [o'|] eqn:Ho; [|discriminate].
    injection H as <-.
    rewrite (flat_map_lookup_uniform _ (numel (list_fmap _ _ fst r)) _ i _ i).
    + pose proof (IH idx (base + i * st) o' Ho) as Hr. unfold fmap in Hr.
      rewrite Hr. f_equal. lia.
    + intros j. apply length_offsets.
    + now apply lookup_seq_lt.
    + exact (flat_index_lt r idx o' Ho).
Qed.

Lemma elements_lookup h t idx :
  is_Some (index_offset (zip (shape t) (strides t)) idx) ->
  elements h t !! flat_index ((zip (shape t) (strides t)).*1) idx
    = item h t idx.
Proof.
  intros [o Ho]. unfold elements, item, positions.
  rewrite lookup_map, (offsets_lookup _ idx _ o Ho), Ho. reflexivity.
Qed.

Lemma length_elements h t :
  length (elements h t) = numel ((zip (shape t) (strides t)).*1).
Proof. unfold elements, positions. now rewrite length_map, length_offsets. Qed.

Lemma chunks_lookup {A} n k (l : list A) b :
  b < k -> chunks n k l !! b = Some (take n (drop (b * n) l)).
Proof.
  revert b l. induction k as [|k IH]; intros b l Hb; [lia|].
  destruct b as [|b]; simpl; [reflexivity|].
  rewrite IH by lia. rewrite drop_drop. reflexivity.
Qed.

Lemma chunks_lengths {A} n k (l : list A) :
  k * n <= length l -> Forall (fun c => length c = n) (chunks n k l).
Proof.
  revert l. induction k as [|k IH]; intros l Hl; simpl; constructor.
  - apply length_take_le. simpl in Hl. lia.
  - apply IH. rewrite length_drop. simpl in Hl. lia.
Qed.

Lemma concat_lookup_uniform {A} (ls : list (list A)) L b r l :
  Forall (fun c => length c = L) ls -> ls !! b = Some l -> r < L ->
  concat ls !! (b * L + r) = l !! r.
Proof.
  intros Hall. revert b. induction Hall as [|c ls Hc _ IH]; intros b Hb Hr;
    [discriminate|].
  destruct b as [|b]; simpl in *.
  - injection Hb as ->. apply lookup_app_l. lia.
  - rewrite lookup_app_r by lia.
    replace (L + b * L + r - length c) with (b * L + r) by lia.
    now apply IH.
Qed.

Lemma length_chunks {A} n k (l : list A) : length (chunks n k l) = k.
Proof. revert l. induction k as [|k IH]; intros l; simpl; auto. Qed.

(** Entry [r] of batch [b] of a concatenation along dimension 1 comes from
    the first operand when it lies in the first [ca] rows, from the second
    otherwise. *)
Lemma cat_content_lookup {A} (Ea Eb : list A) n ca cb K b r :
  n * (ca * K) <= length Ea -> n * (cb * K) <= length Eb ->
  b < n -> r < (ca + cb) * K ->
  concat (zip_with app (chunks (ca * K) n Ea) (chunks (cb * K) n Eb))
    !! (b * ((ca + cb) * K) + r)
  = if decide (r < ca * K) then Ea !! (b * (ca * K) + r)
    else Eb !! (b * (cb * K) + (r - ca * K)).
Proof.
  intros Ha Hb Hbn Hr.
  pose proof (chunks_lookup (ca * K) n Ea b Hbn) as Hca.
  pose proof (chunks_lookup (cb * K) n Eb b Hbn) as Hcb.
  assert (Hla : length (take (ca * K) (drop (b * (ca * K)) Ea)) = ca * K).
  { apply length_take_le. rewrite length_drop. nia. }
  rewrite (concat_lookup_uniform _ ((ca + cb) * K) b r
             (take (ca * K) (drop (b * (ca * K)) Ea)
              ++ take (cb * K) (drop (b * (cb * K)) Eb))).
  - destruct (decide (r < ca * K)) as [Hlt|Hge].
    + rewrite lookup_app_l by lia.
      rewrite lookup_take_lt by lia. apply lookup_drop.
    + rewrite lookup_app_r by lia. rewrite Hla.
      rewrite lookup_take_lt by lia. apply lookup_drop.
  - apply Forall_lookup. intros i c Hc.
    rewrite lookup_zip_with in Hc.
    destruct (chunks (ca * K) n Ea !! i) as [x|] eqn:Hx; [|discriminate].
    destruct (chunks (cb * K) n Eb !! i) as [y|] eqn:Hy; [|discriminate].
    simpl in Hc. injection Hc as <-.
    pose proof (chunks_lengths (ca * K) n Ea Ha) as Fa.
    pose proof (chunks_lengths (cb * K) n Eb Hb) as Fb.
    rewrite Forall_lookup in Fa, Fb.
    rewrite length_app, (Fa i x Hx), (Fb i y Hy). lia.
  - rewrite lookup_zip_with, Hca, Hcb. reflexivity.
  - exact Hr.
Qed.

Lemma numel_1 N : numel [1; N] = N.
Proof. unfold numel. simpl. lia. Qed.

(** Views of sizes (a, c, 1, N): position of an entry in [elements]. *)
Lemma elements_lookup_4 h t a c N q0 q1 q2 q3 b j n :
  shape t = [a; c; 1; N] -> strides t = [q0; q1; q2; q3] ->
  b < a -> j < c -> n < N ->
  elements h t !! (b * (c * N) + (j * N + n)) = item h t [b; j; 0; n].
Proof.
  intros Hsh Hst Hb Hj Hn. rewrite <- elements_lookup.
  - f_equal. rewrite Hsh, Hst. unfold numel. simpl. lia.
  - rewrite Hsh, Hst. simpl.
    rewrite !decide_True by lia. simpl. eauto.
Qed.

Lemma length_elements_4 h t a c N q0 q1 q2 q3 :
  shape t = [a; c; 1; N] -> strides t = [q0; q1; q2; q3] ->
  length (elements h t) = a * (c * N).
Proof.
  intros Hsh Hst. rewrite length_elements, Hsh, Hst.
  unfold numel. simpl. lia.
Qed.

Lemma item_dense_4 h a sh dt content B K N b j n :
  sh = [B; K; 1; N] -> h !! a = Some content ->
  b < B -> j < K -> n < N ->
  item h (dense a sh dt) [b; j; 0; n]
    = Some (default 0%Z (content !! (b * (K * N) + (j * N + n)))).
Proof.
  intros -> Hh Hb Hj Hn. unfold item, block. simpl. rewrite Hh.
  rewrite !decide_True by lia. simpl. unfold numel. simpl.
  do 3 f_equal. lia.
Qed.

Lemma unsqueezed_item h (t r : tensor) B C N p0 p1 p2 b c n :
  shape t = [B; C; N] -> strides t = [p0; p1; p2] ->
  r = Tensor (storage t) (offset t) [B; C; 1; N] [p0; p1; N * p2; p2]
             (elem_type t) ->
  item h r [b; c; 0; n] = item h t [b; c; n].
Proof.
  intros Hsh Hst ->. unfold item. simpl. rewrite Hsh, Hst. simpl.
  repeat case_decide; simpl; try reflexivity; lia.
Qed.

(** X2: with features (B, C, N) of the element type of the point cloud and
    use_xyz on, GroupAll.forward returns a new (B, 3 + C, 1, N) tensor of
    that element type: rows 0 to 2 of batch b hold the coordinates of its
    points, rows 3 to 2 + C their features.  No kernel is invoked. *)
Theorem GroupAll_forward_concatenates
  (xyz new_xyz points : tensor) (B N C s0 s1 s2 p0 p1 p2 : nat) (s : state) :
  shape xyz = [B; N; 3] -> strides xyz = [s0; s1; s2] ->
  shape points = [B; C; N] -> strides points = [p0; p1; p2] ->
  elem_type points = elem_type xyz ->
  exists s' r,
    GroupAll_forward {| GroupAll_use_xyz := true |} xyz new_xyz (Some points) s
      = (s', inr (VTensor r))
    /\ shape r = [B; 3 + C; 1; N]
    /\ elem_type r = elem_type xyz
    /\ trace s' = trace s
    /\ forall b n, b < B -> n < N ->
        (forall d, d < 3 ->
            item (mem s') r [b; d; 0; n] = item (mem s) xyz [b; n; d])
        /\ (forall c, c < C ->
            item (mem s') r [b; 3 + c; 0; n] = item (mem s) points [b; c; n]).
Proof.
  intros Hsh Hst Hpsh Hpst _. unfold GroupAll_forward.
  erewrite bind_ok; [|apply (transpose_1_2 _ B N 3 s0 s1 s2); assumption].
  erewrite bind_ok; [|apply (unsqueeze_2 _ B 3 N s0 s2 s1); reflexivity].
  erewrite bind_ok; [|apply (unsqueeze_2 _ B C N p0 p1 p2); assumption].
  cbn [GroupAll_use_xyz storage offset elem_type].
  set (gx := Tensor (storage xyz) (offset xyz) [B; 3; 1; N]
                    [s0; s2; N * s1; s1] (elem_type xyz)).
  set (gp := Tensor (storage points) (offset points) [B; C; 1; N]
                    [p0; p1; N * p2; p2] (elem_type points)).
  unfold cat_dim1. simpl shape. cbv beta iota.
  rewrite decide_True by (split; reflexivity).
  erewrite bind_ok; [|reflexivity].
  eexists _, _. split; [reflexivity|]. split; [reflexivity|].
  split; [reflexivity|]. split; [reflexivity|].
  intros b n Hb Hn.
  assert (Hea : length (elements (mem s) gx) = B * (3 * N))
    by (apply (length_elements_4 _ gx B 3 N s0 s2 (N * s1) s1); reflexivity).
  assert (Heb : length (elements (mem s) gp) = B * (C * N))
    by (apply (length_elements_4 _ gp B C N p0 p1 (N * p2) p2); reflexivity).
  split.
  - intros d Hd.
    cbn [mem].
    change (Tensor ?a 0 ?sh (contiguous_strides ?sh) ?dt) with (dense a sh dt).
    erewrite (item_dense_4 _ _ _ _ _ B (3 + C) N);
      [|reflexivity|apply lookup_insert_eq|lia..].
    rewrite numel_1.
    rewrite (cat_content_lookup _ _ B 3 C N b (d * N + n)) by nia.
    rewrite decide_True by nia.
    rewrite (elements_lookup_4 _ gx B 3 N s0 s2 (N * s1) s1)
      by (reflexivity || lia).
    rewrite (regrouped_item (mem s) xyz gx B N s0 s1 s2) by auto.
    unfold item. rewrite Hsh, Hst. simpl.
    rewrite !decide_True by lia. reflexivity.
  - intros c Hc.
    cbn [mem].
    change (Tensor ?a 0 ?sh (contiguous_strides ?sh) ?dt) with (dense a sh dt).
    erewrite (item_dense_4 _ _ _ _ _ B (3 + C) N);
      [|reflexivity|apply lookup_insert_eq|lia..].
    rewrite numel_1.
    rewrite (cat_content_lookup _ _ B 3 C N b ((3 + c) * N + n)) by nia.
    rewrite decide_False by nia.
    replace ((3 + c) * N + n - 3 * N) with (c * N + n) by nia.
    rewrite (elements_lookup_4 _ gp B C N p0 p1 (N * p2) p2)
      by (reflexivity || lia).
    rewrite (unsqueezed_item (mem s) points gp B C N p0 p1 p2) by auto.
    unfold item. rewrite Hpsh, Hpst. simpl.
    rewrite !decide_True by lia. reflexivity.
Qed.

Lemma GroupAll_forward_concatenates_witness :
  exists s' r,
    GroupAll_forward {| GroupAll_use_xyz := true |} (dense 0 [2; 4; 3] Float32)
      (dense 1 [2; 1; 3] Float32) (Some (dense 1 [2; 3; 4] Float32)) demo_state
      = (s', inr (VTensor r))
    /\ shape r = [2; 3 + 3; 1; 4]
    /\ elem_type r = elem_type (dense 0 [2; 4; 3] Float32)
    /\ trace s' = trace demo_state
    /\ forall b n, b < 2 -> n < 4 ->
        (forall d, d < 3 ->
            item (mem s') r [b; d; 0; n]
              = item (mem demo_state) (dense 0 [2; 4; 3] Float32) [b; n; d])
        /\ (forall c, c < 3 ->
            item (mem s') r [b; 3 + c; 0; n]
              = item (mem demo_state) (dense 1 [2; 3; 4] Float32) [b; c; n]).
Proof.
  apply (GroupAll_forward_concatenates _ _ _ 2 4 3 12 3 1 12 4 1);
    reflexivity.
Defined.

(** X5: GroupAll.forward checks nothing itself; what fails, fails in torch
    and leaves the state as it was: a point cloud with fewer than three
    dimensions gives IndexError (transpose), and with use_xyz on, features
    whose batch size or point count differs from that of the point cloud
    give RuntimeError (cat). *)
Theorem GroupAll_forward_errors
  (self : GroupAll) (xyz new_xyz : tensor) (s : state) :
  (forall points,
      length (shape xyz) < 3 ->
      GroupAll_forward self xyz new_xyz points s = (s, inl IndexError))
  /\ (forall points B N s0 s1 s2 B' C N' p0 p1 p2,
      GroupAll_use_xyz self = true ->
      shape xyz = [B; N; 3] -> strides xyz = [s0; s1; s2] ->
      shape points = [B'; C; N'] -> strides points = [p0; p1; p2] ->
      B <> B' \/ N <> N' ->
      GroupAll_forward self xyz new_xyz (Some points) s
        = (s, inl RuntimeError)).
Proof.
  split.
  - intros points Hlen. unfold GroupAll_forward.
    erewrite bind_err; [reflexivity|].
    unfold transpose, swap.
    destruct (shape xyz) as [|a [|b [|c r]]]; simpl in *; try reflexivity.
    lia.
  - intros points B N s0 s1 s2 B' C N' p0 p1 p2 Hu Hsh Hst Hpsh Hpst Hne.
    unfold GroupAll_forward. rewrite Hu.
    erewrite bind_ok; [|apply (transpose_1_2 _ B N 3 s0 s1 s2); assumption].
    erewrite bind_ok; [|apply (unsqueeze_2 _ B 3 N s0 s2 s1); reflexivity].
    erewrite bind_ok; [|apply (unsqueeze_2 _ B' C N' p0 p1 p2); assumption].
    erewrite bind_err; [reflexivity|].
    unfold cat_dim1. cbn [shape]. cbv beta iota.
    rewrite decide_False; [reflexivity|].
    intros [HB HN]. injection HN as HN. tauto.
Qed.

Lemma GroupAll_forward_errors_witness :
  GroupAll_forward {| GroupAll_use_xyz := true |} (dense 0 [4; 3] Float32)
    (dense 1 [2; 1; 3] Float32) None demo_state = (demo_state, inl IndexError)
  /\ GroupAll_forward {| GroupAll_use_xyz := true |} (dense 0 [2; 4; 3] Float32)
       (dense 1 [2; 1; 3] Float32) (Some (dense 1 [2; 3; 5] Float32)) demo_state
     = (demo_state, inl RuntimeError).
Proof.
  split.
  - apply (GroupAll_forward_errors {| GroupAll_use_xyz := true |}
             (dense 0 [4; 3] Float32) (dense 1 [2; 1; 3] Float32) demo_state).
    simpl. lia.
  - apply (proj2 (GroupAll_forward_errors {| GroupAll_use_xyz := true |}
             (dense 0 [2; 4; 3] Float32) (dense 1 [2; 1; 3] Float32) demo_state)
             _ 2 4 12 3 1 2 3 5 15 5 1); try reflexivity.
    right. lia.
Defined.

(** ** Forward and backward passes together *)

Lemma print_run v s :
  print v s = (State (mem s) (uninit s) (ctxs s) (trace s ++ [EPrint v]), inr tt).
Proof. reflexivity. Qed.

(** X6: gather points, forward then backward on the same context, with
    kernels that fill their output buffer: the backward pass returns a
    pair (gradient, None) whose gradient has the sizes (B, C, N) of the
    features given to the forward pass, whatever the sizes of the incoming
    gradient, and prints that gradient; the log shows the two kernel calls
    and the print, in this order. *)
Theorem GatherPoints_forward_then_backward
  (P : pymodule) (k kg : native) (ctx : nat) (points idx grad_out : tensor)
  (B C N npoint : nat) (s : state) :
  P "gather_points" = Some k -> fills_output k ->
  P "gather_points_grad" = Some kg -> fills_output kg ->
  shape points = [B; C; N] -> shape idx = [B; npoint] ->
  exists s1 out s2 grad buf h1 h2,
    GatherPoints_forward (source_globals P) ctx points idx s
      = (s1, inr (VTensor out))
    /\ GatherPoints_backward (source_globals P) ctx grad_out s1
       = (s2, inr (VTuple [VTensor grad; VNone]))
    /\ shape grad = shape points
    /\ shape buf = shape points
    /\ trace s2 = trace s
         ++ [ECall "pointnet" "gather_points"
                   [VTensor points; VTensor idx;
                    VTensor (dense (fresh (dom (mem s))) [B; C; npoint] Float32)]
                   h1;
             ECall "pointnet" "gather_points_grad"
                   [VTensor grad_out; VTensor idx; VTensor buf] h2;
             EPrint (VTensor grad)].
Proof.
  intros HP Hk HPg Hkg Hsp Hsi.
  set (s0 := allocated s (garbage s (numel [B; C; npoint]))).
  set (out0 := dense (fresh (dom (mem s))) [B; C; npoint] Float32).
  destruct (call_pointnet_fills P _ k [VTensor points; VTensor idx] out0 s0 HP Hk)
    as (h' & out & Hcall & Hout).
  set (s1 := State h' (uninit s) (<[ctx := <["for_backwards" :=
                 VTuple [VTensor idx; int C; int N]]> (ctx_attrs s ctx)]> (ctxs s))
               (trace s0 ++ [ECall "pointnet" "gather_points"
                               [VTensor points; VTensor idx; VTensor out0]
                               (mem s0)])).
  assert (Hfwd : GatherPoints_forward (source_globals P) ctx points idx s
                 = (s1, inr (VTensor out))).
  { unfold GatherPoints_forward, size. rewrite Hsp.
    erewrite bind_ok; [|reflexivity]. cbv beta iota.
    erewrite bind_ok; [|unfold size_at; rewrite Hsi; reflexivity].
    erewrite bind_ok; [|apply (cuda_tensor_nat _ [B; C; npoint])].
    erewrite bind_ok; [|exact Hcall].
    erewrite bind_ok; [|reflexivity].
    erewrite bind_ok; [|apply setattr_run].
    reflexivity. }
  set (s1' := allocated s1 (garbage s1 (numel [B; C; N]))).
  set (buf := dense (fresh (dom (mem s1))) [B; C; N] Float32).
  destruct (call_pointnet_fills P _ kg [VTensor grad_out; VTensor idx] buf s1'
              HPg Hkg) as (h'' & grad & Hcallg & Hgrad).
  exists s1, out. eexists _, grad, buf, (mem s0), (mem s1').
  split; [exact Hfwd|]. split.
  - unfold GatherPoints_backward, size.
    erewrite bind_ok;
      [|apply (getattr_found _ _ (VTuple [VTensor idx; int C; int N]));
        unfold ctx_attrs; simpl; rewrite lookup_insert_eq; simpl;
        apply lookup_insert_eq].
    erewrite bind_ok; [|reflexivity]. cbv beta iota.
    erewrite bind_ok; [|reflexivity].
    rewrite Hsi.
    erewrite bind_ok; [|reflexivity]. cbv beta iota.
    erewrite bind_ok; [|reflexivity].
    erewrite bind_ok; [|reflexivity].
    erewrite bind_ok; [|apply (cuda_tensor_nat _ [B; C; N])].
    erewrite bind_ok; [|exact Hcallg].
    erewrite bind_ok; [|reflexivity].
    erewrite bind_ok; [|apply print_run].
    reflexivity.
  - split; [now rewrite Hgrad, Hsp|]. split; [now rewrite Hsp|].
    simpl. rewrite <- !app_assoc. reflexivity.
Qed.

Lemma GatherPoints_forward_then_backward_witness :
  let points := dense 0 [2; 3; 4] Float32 in
  let idx := dense 1 [2; 5] Int32 in
  let grad_out := dense 0 [2; 3; 5] Float32 in
  exists s1 out s2 grad buf h1 h2,
    GatherPoints_forward (source_globals demo_pointnet) 0 points idx demo_state
      = (s1, inr (VTensor out))
    /\ GatherPoints_backward (source_globals demo_pointnet) 0 grad_out s1
       = (s2, inr (VTuple [VTensor grad; VNone]))
    /\ shape grad = shape points
    /\ shape buf = shape points
    /\ trace s2 = trace demo_state
         ++ [ECall "pointnet" "gather_points"
                   [VTensor points; VTensor idx;
                    VTensor (dense (fresh (dom (mem demo_state))) [2; 3; 5]
                                   Float32)]
                   h1;
             ECall "pointnet" "gather_points_grad"
                   [VTensor grad_out; VTensor idx; VTensor buf] h2;
             EPrint (VTensor grad)].
Proof.
  cbv zeta.
  apply (GatherPoints_forward_then_backward demo_pointnet echo_kernel
           echo_kernel 0 _ _ _ 2 3 4 5 demo_state);
    try reflexivity; exact echo_kernel_fills.
Defined.

Lemma getattr_missing c a s :
  ctx_attrs s c !! a = None -> getattr c a s = (s, inl (AttributeError a)).
Proof. intros H. unfold getattr. now rewrite H. Qed.

(** X7: a backward pass called on a context in which the forward pass has
    stored nothing fails with AttributeError on its first statement: the
    state is left as it was, nothing is allocated and no kernel is
    invoked. *)
Theorem backward_without_forward
  (G : globals) (ctx : nat) (grad_out : tensor) (s : state) :
  (ctx_attrs s ctx !! "for_backwards" = None ->
     GatherPoints_backward G ctx grad_out s
       = (s, inl (AttributeError "for_backwards"))
     /\ GroupPoints_backward G ctx grad_out s
        = (s, inl (AttributeError "for_backwards")))
  /\ (ctx_attrs s ctx !! "three_interpolate_for_backward" = None ->
     ThreeInterpolate_backward G ctx grad_out s
       = (s, inl (AttributeError "three_interpolate_for_backward"))).
Proof.
  split.
  - intros H. split.
    + unfold GatherPoints_backward.
      erewrite bind_err; [reflexivity|now apply getattr_missing].
    + unfold GroupPoints_backward.
      erewrite bind_err; [reflexivity|now apply getattr_missing].
  - intros H. unfold ThreeInterpolate_backward.
    erewrite bind_err; [reflexivity|now apply getattr_missing].
Qed.

Lemma backward_without_forward_witness :
  (GatherPoints_backward (source_globals demo_pointnet) 0
     (dense 0 [2; 3; 4] Float32) demo_state
     = (demo_state, inl (AttributeError "for_backwards"))
   /\ GroupPoints_backward (source_globals demo_pointnet) 0
        (dense 0 [2; 3; 4] Float32) demo_state
      = (demo_state, inl (AttributeError "for_backwards")))
  /\ ThreeInterpolate_backward (source_globals demo_pointnet) 0
       (dense 0 [2; 3; 4] Float32) demo_state
     = (demo_state, inl (AttributeError "three_interpolate_for_backward")).
Proof.
  destruct (backward_without_forward (source_globals demo_pointnet) 0
              (dense 0 [2; 3; 4] Float32) demo_state) as [H1 H2].
  split; [apply H1|apply H2]; reflexivity.
Defined.

(** X8: in the file's own name space the backward passes of weighted
    interpolation and group points never return a gradient: whatever the
    context holds and whatever the incoming gradient, they end in an
    exception, at the latest on the reference to [pointnet2]. *)
Theorem pointnet2_backward_never_returns
  (P : pymodule) (ctx : nat) (grad_out : tensor) (s : state) :
  (exists e,
      (ThreeInterpolate_backward (source_globals P) ctx grad_out s).2 = inl e)
  /\ (exists e,
      (GroupPoints_backward (source_globals P) ctx grad_out s).2 = inl e).
Proof.
  split.
  - unfold ThreeInterpolate_backward. cbv zeta. fails_on_lookup.
  - unfold GroupPoints_backward. cbv zeta. fails_on_lookup.
Qed.

Lemma call_unbound_then {B} G modname entry args (k : value -> M B) s :
  G modname = None ->
  bind (call_ext G modname entry args) k s = (s, inl (NameError modname)).
Proof. intros HG. apply bind_err. now apply call_ext_unbound. Qed.

Lemma keeps_unbound_call {B} G modname entry args (k : value -> M B) :
  G modname = None -> keeps_ctxs (bind (call_ext G modname entry args) k).
Proof. intros HG s. now rewrite call_unbound_then. Qed.

Lemma GroupPoints_forward_source_keeps P ctx points idx :
  keeps_ctxs (GroupPoints_forward (source_globals P) ctx points idx).
Proof.
  unfold GroupPoints_forward.
  repeat first
    [ apply keeps_unbound_call, source_globals_pointnet2
    | apply keeps_bind; [solve [auto with ctx_keep]|]; intros;
      split_tuples; cbv beta iota ].
Qed.

(** X9: in the file's own name space a group points forward pass saves
    nothing for the backward pass (it stores its context only after the
    kernel call, which it never gets past): every context object is left as
    it was, so that a backward pass on a context that was empty fails with
    AttributeError. *)
Theorem GroupPoints_forward_saves_nothing
  (P : pymodule) (ctx : nat) (points : tensor) (idx : value)
  (grad_out : tensor) (s : state) :
  ctx_attrs s ctx !! "for_backwards" = None ->
  let s' := (GroupPoints_forward (source_globals P) ctx points idx s).1 in
  ctxs s' = ctxs s
  /\ GroupPoints_backward (source_globals P) ctx grad_out s'
     = (s', inl (AttributeError "for_backwards")).
Proof.
  intros Hnone. cbv zeta.
  pose proof (GroupPoints_forward_source_keeps P ctx points idx s) as Hk.
  split; [exact Hk|].
  unfold GroupPoints_backward.
  erewrite bind_err; [reflexivity|].
  apply getattr_missing. unfold ctx_attrs. rewrite Hk. exact Hnone.
Qed.

Lemma GroupPoints_forward_saves_nothing_witness :
  let s' := (GroupPoints_forward (source_globals demo_pointnet) 0
               (dense 0 [2; 3; 4] Float32) (VTensor (dense 1 [2; 4; 3] Int32))
               demo_state).1 in
  ctxs s' = ctxs demo_state
  /\ GroupPoints_backward (source_globals demo_pointnet) 0
       (dense 0 [2; 3; 4; 3] Float32) s'
     = (s', inl (AttributeError "for_backwards")).
Proof.
  apply (GroupPoints_forward_saves_nothing demo_pointnet 0
           (dense 0 [2; 3; 4] Float32) (VTensor (dense 1 [2; 4; 3] Int32))
           (dense 0 [2; 3; 4; 3] Float32) demo_state).
  reflexivity.
Defined.



(** X11: gather points takes the kernel's result apart as [output, = ...]
    and checks nothing else.  If the kernel returns a one-element tuple,
    the forward pass returns that element, tensor or not, and stores its
    context; if it returns a tuple of another length the pass fails with
    ValueError, if it returns None with TypeError, and then nothing is
    stored.  The kernel has run in every case. *)
Theorem GatherPoints_forward_unpacks_kernel_result
  (P : pymodule) (k : native) (v : value) (ctx : nat) (points idx : tensor)
  (B C N npoint : nat) (s : state) :
  P "gather_points" = Some k ->
  (forall args h, exists h', k args h = (h', inr v)) ->
  shape points = [B; C; N] -> shape idx = [B; npoint] ->
  let r := GatherPoints_forward (source_globals P) ctx points idx s in
  (exists out h,
      trace r.1 = trace s ++ [ECall "pointnet" "gather_points"
                                    [VTensor points; VTensor idx; VTensor out] h])
  /\ (forall x, v = VTuple [x] ->
        r.2 = inr x
        /\ ctx_attrs r.1 ctx !! "for_backwards"
           = Some (VTuple [VTensor idx; int C; int N]))
  /\ (forall vs, v = VTuple vs -> length vs <> 1 ->
        r.2 = inl ValueError /\ ctxs r.1 = ctxs s)
  /\ (v = VNone -> r.2 = inl TypeError /\ ctxs r.1 = ctxs s).
Proof.
  intros HP Hk Hsp Hsi. cbv zeta.
  split.
  { exact (GatherPoints_forward_calls P k ctx points idx B C N B npoint [] s
             HP Hsp Hsi). }
  unfold GatherPoints_forward, size. rewrite Hsp.
  erewrite bind_ok; [|reflexivity]. cbv beta iota.
  erewrite bind_ok; [|unfold size_at; rewrite Hsi; reflexivity].
  erewrite bind_ok; [|apply (cuda_tensor_nat _ [B; C; npoint])].
  set (s0 := allocated s _). set (out := dense _ _ _).
  destruct (Hk [VTensor points; VTensor idx; VTensor out] (mem s0)) as [h' Hrun].
  assert (Hcall : call_ext (source_globals P) "pointnet" "gather_points"
                    [VTensor points; VTensor idx; VTensor out] s0
                  = (called s0 "pointnet" "gather_points"
                       [VTensor points; VTensor idx; VTensor out] h', inr v)).
  { rewrite (call_ext_bound _ _ _ P k); [|reflexivity|exact HP].
    now rewrite Hrun. }
  erewrite bind_ok; [|exact Hcall].
  split; [|split].
  - intros x ->.
    erewrite bind_ok; [|reflexivity].
    erewrite bind_ok; [|apply setattr_run].
    split; [reflexivity|].
    unfold ctx_attrs. simpl. rewrite lookup_insert_eq. simpl.
    apply lookup_insert_eq.
  - intros vs -> Hlen.
    erewrite bind_err; cycle 1.
    { unfold unpack_1. erewrite bind_ok; [|reflexivity].
      destruct vs as [|x [|y vs]]; [reflexivity| |reflexivity].
      exfalso. simpl in Hlen. lia. }
    split; reflexivity.
  - intros ->. erewrite bind_err; cycle 1.
    { reflexivity. }
    split; reflexivity.
Qed.

Lemma GatherPoints_forward_unpacks_kernel_result_witness :
  let r := GatherPoints_forward (source_globals (fun _ => Some idle_kernel)) 0
             (dense 0 [2; 3; 4] Float32) (dense 1 [2; 5] Int32) demo_state in
  r.2 = inl TypeError /\ ctxs r.1 = ctxs demo_state.
Proof.
  cbv zeta.
  apply (GatherPoints_forward_unpacks_kernel_result
           (fun _ => Some idle_kernel) idle_kernel VNone 0
           (dense 0 [2; 3; 4] Float32) (dense 1 [2; 5] Int32) 2 3 4 5
           demo_state); try reflexivity.
  intros args h. exists h. reflexivity.
Defined.

(** ** What the [pointnet] wrappers hand to their kernels *)

(** X12: the forward passes of gather points and ball query compare no
    sizes of their inputs with one another.  Gather points unpacks
    points.size() into (B, C, N) and reads idx.size(1); ball query reads
    xyz.size(0) and new_xyz.size(1).  The kernel then receives the inputs as
    they are and, as last argument, a newly allocated dense buffer whose
    block still holds what the device memory held: (B, C, k) floats, resp.
    (B, npoint, 3) integers.  In particular the batch sizes of the inputs
    may differ, and the index tensor of gather points may have more than
    two dimensions. *)
Theorem pointnet_forward_marshals
  (P : pymodule) (ctx : nat) (s : state) :
  let a := fresh (dom (mem s)) in
  mem s !! a = None
  /\ (forall k points idx B C N B' npoint rest,
      P "gather_points" = Some k ->
      shape points = [B; C; N] -> shape idx = B' :: npoint :: rest ->
      trace (GatherPoints_forward (source_globals P) ctx points idx s).1
        = trace s
          ++ [ECall "pointnet" "gather_points"
                    [VTensor points; VTensor idx;
                     VTensor (dense a [B; C; npoint] Float32)]
                    (<[a := garbage s (numel [B; C; npoint])]> (mem s))])
  /\ (forall k radius nsample xyz new_xyz B rest B' npoint rest',
      P "ball_query" = Some k ->
      shape xyz = B :: rest -> shape new_xyz = B' :: npoint :: rest' ->
      trace (BallQuery_forward (source_globals P) ctx radius nsample xyz
               new_xyz s).1
        = trace s
          ++ [ECall "pointnet" "ball_query"
                    [VFloat radius; VInt nsample; VTensor xyz; VTensor new_xyz;
                     VTensor (dense a [B; npoint; 3] Int32)]
                    (<[a := garbage s (numel [B; npoint; 3])]> (mem s))]).
Proof.
  cbv zeta. split; [apply fresh_block_lookup|]. split.
  - intros k points idx B C N B' npoint rest HP Hsp Hsi.
    unfold GatherPoints_forward, size. rewrite Hsp.
    erewrite bind_ok; [|reflexivity]. cbv beta iota.
    erewrite bind_ok; [|unfold size_at; rewrite Hsi; reflexivity].
    erewrite bind_ok; [|apply (cuda_tensor_nat _ [B; C; npoint])].
    rewrite (trace_call_then _ _ _ P k); [reflexivity|reflexivity|exact HP|].
    intros v. apply keeps_trace_bind; [apply keeps_trace_unpack_1|].
    intros x. apply keeps_trace_bind; [apply keeps_trace_setattr|].
    intros _. apply keeps_trace_ret.
  - intros k radius nsample xyz new_xyz B rest B' npoint rest' HP Hsx Hsn.
    unfold BallQuery_forward.
    erewrite bind_ok; [|unfold size_at; rewrite Hsx; reflexivity].
    erewrite bind_ok; [|unfold size_at; rewrite Hsn; reflexivity].
    erewrite bind_ok; [|apply (cuda_tensor_nat _ [B; npoint; 3])].
    rewrite (trace_call_then _ _ _ P k); [reflexivity|reflexivity|exact HP|].
    intros v. apply keeps_trace_bind; [apply keeps_trace_unpack_1|].
    intros x. apply keeps_trace_ret.
Qed.

Lemma pointnet_forward_marshals_witness :
  trace (GatherPoints_forward (source_globals demo_pointnet) 0
           (dense 0 [2; 3; 4] Float32) (dense 1 [3; 5] Int32) demo_state).1
    = trace demo_state
      ++ [ECall "pointnet" "gather_points"
                [VTensor (dense 0 [2; 3; 4] Float32);
                 VTensor (dense 1 [3; 5] Int32);
                 VTensor (dense (fresh (dom (mem demo_state))) [2; 3; 5]
                                Float32)]
                (<[fresh (dom (mem demo_state)) :=
                     garbage demo_state (numel [2; 3; 5])]>
                   (mem demo_state))]
  /\ trace (BallQuery_forward (source_globals demo_pointnet) 0 1%Z 16%Z
              (dense 0 [2; 4; 3] Float32) (dense 1 [3; 2; 3] Float32)
              demo_state).1
     = trace demo_state
       ++ [ECall "pointnet" "ball_query"
                 [VFloat 1; VInt 16; VTensor (dense 0 [2; 4; 3] Float32);
                  VTensor (dense 1 [3; 2; 3] Float32);
                  VTensor (dense (fresh (dom (mem demo_state))) [2; 2; 3]
                                 Int32)]
                 (<[fresh (dom (mem demo_state)) :=
                      garbage demo_state (numel [2; 2; 3])]>
                    (mem demo_state))].
Proof.
  destruct (pointnet_forward_marshals demo_pointnet 0 demo_state)
    as (_ & Hgather & Hball).
  split.
  - apply (Hgather echo_kernel _ _ 2 3 4 3 5 []); reflexivity.
  - apply (Hball echo_kernel 1%Z 16%Z _ _ 2 [4; 3] 3 2 [3]); reflexivity.
Defined.

(** ** The query-and-group helper on well-formed inputs *)

Lemma contig_from_dense sh :
  numel sh <> 0 -> forall rest,
  contig_from (rev (zip sh (contiguous_strides sh)) ++ rest) 1
    = contig_from rest (numel sh).
Proof.
  induction sh as [|d r IH]; intros Hne rest; [reflexivity|].
  change (numel (d :: r)) with (d * numel r) in *.
  assert (Hr : numel r <> 0) by nia.
  simpl. rewrite <- app_assoc. simpl. rewrite (IH Hr). simpl.
  rewrite (stride_of_numel r Hr).
  destruct (Nat.eqb_spec d 1) as [->|Hd].
  - now rewrite Nat.mul_1_l.
  - rewrite Nat.eqb_refl. now rewrite Nat.mul_comm.
Qed.

(** Every tensor the wrappers allocate is contiguous. *)
Lemma is_contiguous_dense a sh dt : is_contiguous (dense a sh dt) = true.
Proof.
  unfold is_contiguous, dense. simpl.
  destruct (Nat.eqb_spec (numel sh) 0) as [Hz|Hnz]; [reflexivity|].
  simpl. rewrite <- (app_nil_r (rev _)). now rewrite contig_from_dense.
Qed.

Lemma contiguous_spec t s :
  exists s' c,
    contiguous t s = (s', inr c)
    /\ is_contiguous c = true /\ shape c = shape t
    /\ trace s' = trace s.
Proof.
  unfold contiguous. destruct (is_contiguous t) eqn:Hc.
  - exists s, t. auto.
  - eexists _, _. split; [reflexivity|].
    split; [apply (is_contiguous_dense _ (shape t))|]. split; reflexivity.
Qed.

Lemma ball_query_returns_buffer P k radius nsample xyz new_xyz B rest B' npoint
  rest' s :
  P "ball_query" = Some k -> returns_buffer k ->
  shape xyz = B :: rest -> shape new_xyz = B' :: npoint :: rest' ->
  exists s1,
    ball_query (source_globals P) radius nsample xyz new_xyz s
      = (s1, inr (VTensor (dense (fresh (dom (mem s))) [B; npoint; 3] Int32)))
    /\ trace s1
       = trace s
         ++ [ECall "pointnet" "ball_query"
                   [VFloat radius; VInt nsample; VTensor xyz; VTensor new_xyz;
                    VTensor (dense (fresh (dom (mem s))) [B; npoint; 3] Int32)]
                   (<[fresh (dom (mem s)) := garbage s (numel [B; npoint; 3])]>
                      (mem s))].
Proof.
  intros HP Hk Hsx Hsn. unfold ball_query, apply.
  erewrite bind_ok; [|reflexivity].
  unfold BallQuery_forward.
  erewrite bind_ok; [|unfold size_at; rewrite Hsx; reflexivity].
  erewrite bind_ok; [|unfold size_at; rewrite Hsn; reflexivity].
  erewrite bind_ok; [|apply (cuda_tensor_nat _ [B; npoint; 3])].
  cbn [mem].
  set (st := allocated _ _).
  destruct (Hk [VFloat radius; VInt nsample; VTensor xyz; VTensor new_xyz]
              (dense (fresh (dom (mem s))) [B; npoint; 3] Int32) (mem st))
    as [h' Hrun].
  simpl app in Hrun.
  erewrite bind_ok;
    [|rewrite (call_ext_bound _ _ _ P k); [|reflexivity|exact HP];
      rewrite Hrun; reflexivity].
  erewrite bind_ok; [|reflexivity].
  eexists. split; reflexivity.
Qed.

Lemma group_points_lookup P points idx B C N npoint nsample s :
  is_contiguous points = true -> is_contiguous idx = true ->
  shape points = [B; C; N] -> shape idx = [B; npoint; nsample] ->
  exists s',
    group_points (source_globals P) points (VTensor idx) s
      = (s', inl (NameError "pointnet2"))
    /\ trace s' = trace s.
Proof.
  intros Hp Hi Hsp Hsi. unfold group_points, apply.
  erewrite bind_ok; [|reflexivity]. cbv beta.
  match goal with
  | |- context [GroupPoints_forward _ ?c _ _ ?st] =>
      destruct (GroupPoints_forward_lookup P c points idx B C N npoint nsample
                  st Hp Hi Hsp Hsi) as (s' & Hr & Ht & _)
  end.
  exists s'. split; [exact Hr|exact Ht].
Qed.

(** X13: the query-and-group helper with a point cloud (B, N, 3), centers
    (B, npoint, 3) and a ball query kernel that hands back its buffer:
    with or without features, use_xyz on or off, the forward pass invokes
    the ball query kernel once, with a (B, npoint, 3) index buffer, gets
    through the transposition and both contiguity assertions of group
    points, and then fails with the name-resolution error for
    [pointnet2]. *)
Theorem QueryAndGroup_forward_fails_after_ball_query
  (fsub : Z -> Z -> Z) (P : pymodule) (k : native) (self : QueryAndGroup)
  (xyz new_xyz : tensor) (points : option tensor)
  (B N npoint s0 s1 s2 : nat) (s : state) :
  P "ball_query" = Some k -> returns_buffer k ->
  shape xyz = [B; N; 3] -> strides xyz = [s0; s1; s2] ->
  shape new_xyz = [B; npoint; 3] ->
  exists s' h,
    QueryAndGroup_forward fsub (source_globals P) self xyz new_xyz points s
      = (s', inl (NameError "pointnet2"))
    /\ trace s'
       = trace s
         ++ [ECall "pointnet" "ball_query"
                   [VFloat (radius self); VInt (nsample self); VTensor xyz;
                    VTensor new_xyz;
                    VTensor (dense (fresh (dom (mem s))) [B; npoint; 3] Int32)]
                   h].
Proof.
  intros HP Hk Hsx Hst Hsn. unfold QueryAndGroup_forward.
  destruct (ball_query_returns_buffer P k (radius self) (nsample self) xyz
              new_xyz B [N; 3] B npoint [3] s HP Hk Hsx Hsn)
    as (st1 & Hbq & Ht1).
  erewrite bind_ok; [|exact Hbq].
  erewrite bind_ok; [|apply (transpose_1_2 _ B N 3 s0 s1 s2); assumption].
  cbv beta.
  match goal with
  | |- context [contiguous ?t] =>
      destruct (contiguous_spec t st1) as (st2 & xt & Hc & Hxc & Hxs & Ht2)
  end.
  erewrite bind_ok; [|exact Hc]. cbv beta.
  destruct (group_points_lookup P xt
              (dense (fresh (dom (mem s))) [B; npoint; 3] Int32)
              B 3 N npoint 3 st2 Hxc (is_contiguous_dense _ _ _) Hxs eq_refl)
    as (st3 & Hgp & Ht3).
  erewrite bind_err; [|exact Hgp].
  eexists st3, _. split; [reflexivity|].
  rewrite Ht3, Ht2, Ht1. reflexivity.
Qed.

Lemma QueryAndGroup_forward_fails_after_ball_query_witness :
  exists s' h,
    QueryAndGroup_forward Z.sub (source_globals demo_pointnet)
      {| radius := 1; nsample := 16; use_xyz := true |}
      (dense 0 [2; 4; 3] Float32) (dense 1 [2; 2; 3] Float32)
      (Some (dense 1 [2; 5; 4] Float32)) demo_state
      = (s', inl (NameError "pointnet2"))
    /\ trace s'
       = trace demo_state
         ++ [ECall "pointnet" "ball_query"
                   [VFloat 1; VInt 16; VTensor (dense 0 [2; 4; 3] Float32);
                    VTensor (dense 1 [2; 2; 3] Float32);
                    VTensor (dense (fresh (dom (mem demo_state))) [2; 2; 3]
                                   Int32)]
                   h].
Proof.
  apply (QueryAndGroup_forward_fails_after_ball_query Z.sub demo_pointnet
           echo_kernel {| radius := 1; nsample := 16; use_xyz := true |}
           (dense 0 [2; 4; 3] Float32) (dense 1 [2; 2; 3] Float32)
           (Some (dense 1 [2; 5; 4] Float32)) 2 4 2 12 3 1 demo_state);
    try reflexivity.
  intros args out h. exists h. unfold echo_kernel. now rewrite last_snoc.
Defined.

(** ** Calls through the [apply] aliases *)

Lemma gather_points_run P k points idx B C N npoint s :
  P "gather_points" = Some k -> fills_output k ->
  shape points = [B; C; N] -> shape idx = [B; npoint] ->
  let c := fresh (dom (ctxs s)) in
  exists s1 out,
    gather_points (source_globals P) points idx s = (s1, inr (VTensor out))
    /\ ctx_attrs s1 c !! "for_backwards"
       = Some (VTuple [VTensor idx; int C; int N])
    /\ (c ∉ dom (ctxs s)) /\ (c ∈ dom (ctxs s1))
    /\ forall c', c' <> c -> ctxs s1 !! c' = ctxs s !! c'.
Proof.
  intros HP Hk Hsp Hsi. cbv zeta. unfold gather_points, apply.
  erewrite bind_ok; [|reflexivity]. cbv beta.
  unfold GatherPoints_forward, size. rewrite Hsp.
  erewrite bind_ok; [|reflexivity]. cbv beta iota.
  erewrite bind_ok; [|unfold size_at; rewrite Hsi; reflexivity].
  erewrite bind_ok; [|apply (cuda_tensor_nat _ [B; C; npoint])].
  set (st := allocated _ _). set (out0 := dense _ _ _).
  destruct (call_pointnet_fills P _ k [VTensor points; VTensor idx] out0 st HP Hk)
    as (h' & out & Hcall & _).
  erewrite bind_ok; [|exact Hcall].
  erewrite bind_ok; [|reflexivity].
  erewrite bind_ok; [|apply setattr_run].
  eexists _, out. split; [reflexivity|].
  unfold ctx_attrs. simpl. split; [|split; [|split]].
  - rewrite lookup_insert_eq. simpl. apply lookup_insert_eq.
  - apply is_fresh.
  - apply elem_of_dom. rewrite lookup_insert_eq. eauto.
  - intros c' Hc. now rewrite !lookup_insert_ne by congruence.
Qed.

(** X14: two calls of [gather_points] one after the other, with a kernel
    that fills its output buffer: each call runs on a context object of
    its own, and after the second call the context of the first still holds
    what the first stored, (idx, C, N) of its own inputs. *)
Theorem gather_points_calls_keep_their_contexts
  (P : pymodule) (k : native) (points1 idx1 points2 idx2 : tensor)
  (B1 C1 N1 k1 B2 C2 N2 k2 : nat) (s : state) :
  P "gather_points" = Some k -> fills_output k ->
  shape points1 = [B1; C1; N1] -> shape idx1 = [B1; k1] ->
  shape points2 = [B2; C2; N2] -> shape idx2 = [B2; k2] ->
  exists s1 out1 s2 out2 c1 c2,
    gather_points (source_globals P) points1 idx1 s = (s1, inr (VTensor out1))
    /\ gather_points (source_globals P) points2 idx2 s1
       = (s2, inr (VTensor out2))
    /\ c1 <> c2
    /\ ctx_attrs s2 c1 !! "for_backwards"
       = Some (VTuple [VTensor idx1; int C1; int N1])
    /\ ctx_attrs s2 c2 !! "for_backwards"
       = Some (VTuple [VTensor idx2; int C2; int N2]).
Proof.
  intros HP Hk Hp1 Hi1 Hp2 Hi2.
  destruct (gather_points_run P k points1 idx1 B1 C1 N1 k1 s HP Hk Hp1 Hi1)
    as (s1 & out1 & Hrun1 & Hattr1 & Hnew1 & Hin1 & _).
  destruct (gather_points_run P k points2 idx2 B2 C2 N2 k2 s1 HP Hk Hp2 Hi2)
    as (s2 & out2 & Hrun2 & Hattr2 & Hnew2 & _ & Hother).
  exists s1, out1, s2, out2, (fresh (dom (ctxs s))), (fresh (dom (ctxs s1))).
  assert (Hne : fresh (dom (ctxs s)) <> fresh (dom (ctxs s1)))
    by (intros Heq; rewrite Heq in Hin1; contradiction).
  repeat split; try assumption.
  unfold ctx_attrs in *. now rewrite Hother.
Qed.

Lemma gather_points_calls_keep_their_contexts_witness :
  exists s1 out1 s2 out2 c1 c2,
    gather_points (source_globals demo_pointnet) (dense 0 [2; 3; 4] Float32)
      (dense 1 [2; 5] Int32) demo_state = (s1, inr (VTensor out1))
    /\ gather_points (source_globals demo_pointnet) (dense 1 [2; 6; 2] Float32)
         (dense 0 [2; 7] Int32) s1 = (s2, inr (VTensor out2))
    /\ c1 <> c2
    /\ ctx_attrs s2 c1 !! "for_backwards"
       = Some (VTuple [VTensor (dense 1 [2; 5] Int32); int 3; int 4])
    /\ ctx_attrs s2 c2 !! "for_backwards"
       = Some (VTuple [VTensor (dense 0 [2; 7] Int32); int 6; int 2]).
Proof.
  apply (gather_points_calls_keep_their_contexts demo_pointnet echo_kernel
           (dense 0 [2; 3; 4] Float32) (dense 1 [2; 5] Int32)
           (dense 1 [2; 6; 2] Float32) (dense 0 [2; 7] Int32)
           2 3 4 5 2 6 2 7 demo_state);
    try reflexivity; exact echo_kernel_fills.
Defined.

(** ** The gradient handed to the [pointnet2] gradient kernels *)





